(** * CLT working-time calculator: the calculation core

    A shallow embedding of [src/core/time.ts], [src/core/types.ts],
    [src/core/calculations.ts] and [src/core/payroll.ts], and the properties
    that the specification states about them; then [core/holidays.ts] and
    the pure parts of the components in [src/ui], with further properties of
    the code.

    Numbers.  A TypeScript [number] is modelled as an exact rational, or the
    value [NaN].  Decimal literals of the source ([1412.00], [0.075], ...)
    denote the decimal fraction that is written; sums, differences, products
    and quotients are exact.  The rounding of IEEE-754 doubles, the sign of
    zero and the two infinities are outside the model: on finite inputs the
    program never divides by zero (the only divisor that is not a constant is
    guarded in [calculateDSR]).

    Doubles.  What a property says about the last bits of a value cannot be
    read off the exact numbers.  [Module Binary64] holds the same code over
    IEEE-754 doubles (the primitive floats, which compute), for the functions
    of which such properties are stated: it decides them on concrete inputs
    and on all clock times of a day.  Theorems on the exact numbers are kept
    to what the doubles share (bounds with room for rounding, values at the
    granularity of cents). *)

From Stdlib Require Import ZArith QArith Qround Qminmax Lqa Lia.
From Stdlib Require Import Bool List String Ascii.
From Stdlib Require Import Floats.
Import ListNotations.

Local Open Scope Q_scope.

(** Decimal literals of doubles denote the nearest double, as in the
    source. *)
Set Warnings "-inexact-float".

(** ** JavaScript numbers and the built-ins the core uses *)

Module JS.

Inductive number : Type :=
| NaN
| Num (q : Q).

(** Equality of values: rationals are compared by [Qeq]. *)
Definition eqn (x y : number) : Prop :=
  match x, y with
  | NaN, NaN => True
  | Num a, Num b => a == b
  | _, _ => False
  end.

Definition isFinite (x : number) : bool :=
  match x with NaN => false | Num _ => true end.

(** [x + y], [x - y], [x * y]: any [NaN] operand gives [NaN]. *)
Definition lift2 (f : Q -> Q -> Q) (x y : number) : number :=
  match x, y with
  | Num a, Num b => Num (f a b)
  | _, _ => NaN
  end.

Definition add : number -> number -> number := lift2 Qplus.
Definition sub : number -> number -> number := lift2 Qminus.
Definition mul : number -> number -> number := lift2 Qmult.

(** [x / y].  A zero divisor gives a value that is not finite. *)
Definition div (x y : number) : number :=
  match x, y with
  | Num a, Num b => if Qeq_bool b 0 then NaN else Num (a / b)
  | _, _ => NaN
  end.

(** [x <= y]: false as soon as an operand is [NaN]. *)
Definition le (x y : number) : bool :=
  match x, y with
  | Num a, Num b => Qle_bool a b
  | _, _ => false
  end.

(** [x === y] on numbers: [NaN] is not equal to anything. *)
Definition strict_eq (x y : number) : bool :=
  match x, y with
  | Num a, Num b => Qeq_bool a b
  | _, _ => false
  end.

(** [Math.max(x, y)]: [NaN] if an operand is, else the larger one. *)
Definition Math_max (x y : number) : number :=
  match x, y with
  | Num a, Num b => if Qle_bool a b then Num b else Num a
  | _, _ => NaN
  end.

(** [Math.round(x)]: the nearest integer, a tie going up. *)
Definition Math_round (x : number) : number :=
  match x with
  | Num a => Num (inject_Z (Qfloor (a + (1 # 2))))
  | NaN => NaN
  end.

(** [!s] for a string: only the empty string is falsy. *)
Definition not_string (s : string) : bool :=
  match s with EmptyString => true | String _ _ => false end.

(** [s.split(sep)] for a separator of one character. *)
Fixpoint split (sep : ascii) (s : string) : list string :=
  match s with
  | EmptyString => [EmptyString]
  | String c rest =>
      if Ascii.eqb c sep then EmptyString :: split sep rest
      else match split sep rest with
           | piece :: more => String c piece :: more
           | [] => [String c EmptyString]
           end
  end.

(** [Number(s)] restricted to what a clock time needs: the empty string is
    0, a string of decimal digits is its value, and nothing else is
    converted.  The functions below take the conversion as a parameter:
    the general theorems hold for every conversion, and this one serves to
    run the functions on clock times. *)
Definition digit (c : ascii) : option Z :=
  let n := Z.of_nat (nat_of_ascii c) in
  if ((48 <=? n) && (n <=? 57))%Z then Some (n - 48)%Z else None.

Fixpoint digits (acc : Z) (s : string) : option Z :=
  match s with
  | EmptyString => Some acc
  | String c rest =>
      match digit c with
      | Some d => digits (10 * acc + d)%Z rest
      | None => None
      end
  end.

Definition decimalNumber (s : string) : number :=
  match digits 0 s with
  | Some z => Num (inject_Z z)
  | None => NaN
  end.

End JS.

Import JS.

Infix "=n=" := eqn (at level 70, no associativity).

(** Rounding to two decimals, as the source writes it everywhere:
    [Math.round(x * 100) / 100]. *)
Definition round2 (x : number) : number :=
  div (Math_round (mul x (Num 100))) (Num 100).

(** The same on rationals, for statements. *)
Definition Qround2 (q : Q) : Q := inject_Z (Qfloor (q * 100 + (1 # 2))) / 100.

(** ** time.ts *)

Section Time.

Variable Number : string -> number.

(** [const [hours, minutes] = time.split(':').map(Number)]: a missing
    component is [undefined], and arithmetic on it gives [NaN]. *)
Definition parseHourToMinutes (time : string) : number :=
  match map Number (split ":" time) with
  | hours :: minutes :: _ => add (mul hours (Num 60)) minutes
  | _ => NaN
  end.

Definition calculateWorkedMinutes
    (entrada saida : string) (intervaloHoras : number) : number :=
  let entradaMinutes := parseHourToMinutes entrada in
  let saidaMinutes := parseHourToMinutes saida in
  let intervaloMinutes := mul intervaloHoras (Num 60) in
  let totalMinutes := sub saidaMinutes entradaMinutes in
  let workedMinutes := sub totalMinutes intervaloMinutes in
  Math_max (Num 0) workedMinutes.

Definition calculateHourDifference (entrada saida : string) : number :=
  let entradaMinutes := parseHourToMinutes entrada in
  let saidaMinutes := parseHourToMinutes saida in
  sub saidaMinutes entradaMinutes.

End Time.

Definition minutesToDecimalHours (minutes : number) : number :=
  let hours := div minutes (Num 60) in
  div (Math_round (mul hours (Num 100))) (Num 100).

(** ** types.ts *)

Inductive WeekDay : Type :=
| segunda | terca | quarta | quinta | sexta | sabado | domingo.

Inductive Escala : Type := escala_6x1.

Record Settings : Type := mkSettings {
  salarioMensal : number;
  horaEntradaPadrao : string;
  horaSaidaPadrao : string;
  intervaloPadraoHoras : number;
  folgaPadrao : WeekDay;
  escala : Escala
}.

(** [date] is the time value of the [Date] object; the core never reads it. *)
Record DayRecord : Type := mkDayRecord {
  date : Z;
  entrada : string;
  saida : string;
  intervaloHoras : number;
  ehFolga : bool;
  ehFeriado : bool
}.

Record DailyHoursResult : Type := mkDailyHoursResult {
  horasNormais : number;
  horasExtra50 : number;
  horasExtra100 : number
}.

(** The first three fields are [horasNormais], [horasExtra50] and
    [horasExtra100] in the source; projections of two records cannot share a
    name here, so the month's totals carry the suffix [Mes]. *)
Record MonthlySummary : Type := mkMonthlySummary {
  horasNormaisMes : number;
  horasExtra50Mes : number;
  horasExtra100Mes : number;
  dsrTotal : number;
  valorBruto : number;
  descontoINSS : number;
  valorLiquido : number
}.

(** ** calculations.ts *)

Section Calculations.

Variable Number : string -> number.

Definition calculateDailyResult
    (entrada saida : string) (intervaloHoras : number)
    (ehFeriado ehFolga : bool) (jornadaPadraoHoras : number)
    : DailyHoursResult :=
  if not_string entrada || not_string saida then
    {| horasNormais := Num 0; horasExtra50 := Num 0; horasExtra100 := Num 0 |}
  else
    let minutosTrabalhadosTotal :=
      calculateWorkedMinutes Number entrada saida intervaloHoras in
    let horasTrabalhadasTotal :=
      minutesToDecimalHours minutosTrabalhadosTotal in
    if ehFeriado then
      {| horasNormais := Num 0;
         horasExtra50 := Num 0;
         horasExtra100 := horasTrabalhadasTotal |}
    else if ehFolga then
      {| horasNormais := Num 0;
         horasExtra50 := horasTrabalhadasTotal;
         horasExtra100 := Num 0 |}
    else if le horasTrabalhadasTotal jornadaPadraoHoras then
      {| horasNormais := horasTrabalhadasTotal;
         horasExtra50 := Num 0;
         horasExtra100 := Num 0 |}
    else
      let horasNormais' := jornadaPadraoHoras in
      let horasExtra50' := sub horasTrabalhadasTotal jornadaPadraoHoras in
      {| horasNormais := horasNormais';
         horasExtra50 := horasExtra50';
         horasExtra100 := Num 0 |}.

End Calculations.

Definition calculateDSR
    (horasExtra50Total horasExtra100Total : number)
    (valorHoraExtra50 valorHoraExtra100 : number)
    (diasRepouso diasUteis : number) : number :=
  let valorHorasExtras50 := mul horasExtra50Total valorHoraExtra50 in
  let valorHorasExtras100 := mul horasExtra100Total valorHoraExtra100 in
  let valorTotalHorasExtras := add valorHorasExtras50 valorHorasExtras100 in
  if strict_eq diasUteis (Num 0) || strict_eq diasRepouso (Num 0) then
    Num 0
  else
    let dsr := mul valorTotalHorasExtras (div diasRepouso diasUteis) in
    div (Math_round (mul dsr (Num 100))) (Num 100).

(** The bracket table, with the literals of the source. *)
Definition faixa1 : Q := 1412.
Definition faixa2 : Q := 266668 # 100.
Definition faixa3 : Q := 400003 # 100.
Definition faixa4 : Q := 778602 # 100.
Definition aliquota1 : Q := 75 # 1000.
Definition aliquota2 : Q := 9 # 100.
Definition aliquota3 : Q := 12 # 100.
Definition aliquota4 : Q := 14 # 100.

Definition calculateINSS (valorBruto : number) : number :=
  if le valorBruto (Num faixa1) then
    mul valorBruto (Num aliquota1)
  else if le valorBruto (Num faixa2) then
    add (mul (Num faixa1) (Num aliquota1))
        (mul (sub valorBruto (Num faixa1)) (Num aliquota2))
  else if le valorBruto (Num faixa3) then
    add (add (mul (Num faixa1) (Num aliquota1))
             (mul (sub (Num faixa2) (Num faixa1)) (Num aliquota2)))
        (mul (sub valorBruto (Num faixa2)) (Num aliquota3))
  else if le valorBruto (Num faixa4) then
    add (add (add (mul (Num faixa1) (Num aliquota1))
                  (mul (sub (Num faixa2) (Num faixa1)) (Num aliquota2)))
             (mul (sub (Num faixa3) (Num faixa2)) (Num aliquota3)))
        (mul (sub valorBruto (Num faixa3)) (Num aliquota4))
  else
    add (add (add (mul (Num faixa1) (Num aliquota1))
                  (mul (sub (Num faixa2) (Num faixa1)) (Num aliquota2)))
             (mul (sub (Num faixa3) (Num faixa2)) (Num aliquota3)))
        (mul (sub (Num faixa4) (Num faixa3)) (Num aliquota4)).

(** The accumulators of the loop over the days. *)
Record Totals : Type := mkTotals {
  horasNormaisTotal : number;
  horasExtra50Total : number;
  horasExtra100Total : number;
  diasRepouso : number;
  diasUteis : number
}.

Section Aggregation.

Variable Number : string -> number.

(** One iteration of [for (const day of days)]. *)
Definition accumulate (jornadaPadraoHoras : number)
    (acc : Totals) (day : DayRecord) : Totals :=
  let resultado :=
    calculateDailyResult Number
      (entrada day) (saida day) (intervaloHoras day)
      (ehFeriado day) (ehFolga day) jornadaPadraoHoras in
  let rest := ehFolga day || ehFeriado day in
  {| horasNormaisTotal := add (horasNormaisTotal acc) (horasNormais resultado);
     horasExtra50Total := add (horasExtra50Total acc) (horasExtra50 resultado);
     horasExtra100Total := add (horasExtra100Total acc) (horasExtra100 resultado);
     diasRepouso := if rest then add (diasRepouso acc) (Num 1) else diasRepouso acc;
     diasUteis := if rest then diasUteis acc else add (diasUteis acc) (Num 1) |}.

Definition calculateMonthlySummary
    (days : list DayRecord) (settings : Settings) : MonthlySummary :=
  let jornadaPadraoHoras := div (Num 220) (Num 30) in
  let valorHora := div (salarioMensal settings) (Num 220) in
  let valorHoraExtra50 := mul valorHora (Num (15 # 10)) in
  let valorHoraExtra100 := mul valorHora (Num 2) in
  let acc :=
    fold_left (accumulate jornadaPadraoHoras) days
      {| horasNormaisTotal := Num 0;
         horasExtra50Total := Num 0;
         horasExtra100Total := Num 0;
         diasRepouso := Num 0;
         diasUteis := Num 0 |} in
  let horasNormaisTotal' := round2 (horasNormaisTotal acc) in
  let horasExtra50Total' := round2 (horasExtra50Total acc) in
  let horasExtra100Total' := round2 (horasExtra100Total acc) in
  let dsrTotal' :=
    calculateDSR horasExtra50Total' horasExtra100Total'
      valorHoraExtra50 valorHoraExtra100
      (diasRepouso acc) (diasUteis acc) in
  let valorHorasExtras50 := mul horasExtra50Total' valorHoraExtra50 in
  let valorHorasExtras100 := mul horasExtra100Total' valorHoraExtra100 in
  let valorBruto' :=
    add (add (add (salarioMensal settings) valorHorasExtras50)
             valorHorasExtras100) dsrTotal' in
  let descontoINSS' := calculateINSS valorBruto' in
  let valorLiquido' := sub valorBruto' descontoINSS' in
  {| horasNormaisMes := horasNormaisTotal';
     horasExtra50Mes := horasExtra50Total';
     horasExtra100Mes := horasExtra100Total';
     dsrTotal := round2 dsrTotal';
     valorBruto := round2 valorBruto';
     descontoINSS := round2 descontoINSS';
     valorLiquido := round2 valorLiquido' |}.

End Aggregation.

(** ** payroll.ts *)

Definition calculateHourlyValue (salarioMensal : number) : number :=
  let valorHora := div salarioMensal (Num 220) in
  div (Math_round (mul valorHora (Num 100))) (Num 100).

Record DayPayroll : Type := mkDayPayroll {
  valorNormal : number;
  valorExtra50 : number;
  valorExtra100 : number
}.

Definition calculatePayrollForDay
    (dailyResult : DailyHoursResult) (valorHora : number) : DayPayroll :=
  let valorHoraExtra50 := mul valorHora (Num (15 # 10)) in
  let valorHoraExtra100 := mul valorHora (Num 2) in
  let valorNormal' := mul (horasNormais dailyResult) valorHora in
  let valorExtra50' := mul (horasExtra50 dailyResult) valorHoraExtra50 in
  let valorExtra100' := mul (horasExtra100 dailyResult) valorHoraExtra100 in
  {| valorNormal := round2 valorNormal';
     valorExtra50 := round2 valorExtra50';
     valorExtra100 := round2 valorExtra100' |}.

Record Payroll : Type := mkPayroll {
  bruto : number;
  inss : number;
  liquido : number
}.

(** The optional argument [descontoINSS?: number] is an [option]: [None] is
    [undefined].  It is named [descontoINSS_arg], the body also reading the
    field [descontoINSS] of the summary. *)
Definition calculateMonthlyPayroll
    (monthSummary : MonthlySummary) (salarioMensal : number)
    (descontoINSS_arg : option number) : Payroll :=
  let valorHora := calculateHourlyValue salarioMensal in
  let valorHoraExtra50 := mul valorHora (Num (15 # 10)) in
  let valorHoraExtra100 := mul valorHora (Num 2) in
  let valorHorasExtras50 := mul (horasExtra50Mes monthSummary) valorHoraExtra50 in
  let valorHorasExtras100 := mul (horasExtra100Mes monthSummary) valorHoraExtra100 in
  let valorBruto' :=
    add (add (add salarioMensal valorHorasExtras50) valorHorasExtras100)
        (dsrTotal monthSummary) in
  let inss' :=
    match descontoINSS_arg with
    | Some given => given
    | None => descontoINSS monthSummary
    end in
  let valorLiquido' := sub valorBruto' inss' in
  {| bruto := round2 valorBruto';
     inss := round2 inss';
     liquido := round2 valorLiquido' |}.

Record OvertimeBreakdown : Type := mkOvertimeBreakdown {
  breakdownExtra50 : number;
  breakdownExtra100 : number;
  totalExtras : number
}.

(** The fields [valorExtra50] and [valorExtra100] of the source carry the
    prefix [breakdown] here, the names being taken by [DayPayroll]. *)
Definition calculateOvertimeBreakdown
    (horasExtra50 horasExtra100 valorHora : number) : OvertimeBreakdown :=
  let valorHoraExtra50 := mul valorHora (Num (15 # 10)) in
  let valorHoraExtra100 := mul valorHora (Num 2) in
  let valorExtra50' := mul horasExtra50 valorHoraExtra50 in
  let valorExtra100' := mul horasExtra100 valorHoraExtra100 in
  let totalExtras' := add valorExtra50' valorExtra100' in
  {| breakdownExtra50 := round2 valorExtra50';
     breakdownExtra100 := round2 valorExtra100';
     totalExtras := round2 totalExtras' |}.

(** ** holidays.ts *)

(** The object [holidaysByMonth]: month numbers as keys, in the order of
    their insertion. *)
Definition HolidayTable : Type := list (Z * list Z).

(** [table[key]]: [None] is [undefined]. *)
Fixpoint table_get (key : Z) (table : HolidayTable) : option (list Z) :=
  match table with
  | [] => None
  | (k, v) :: rest => if (k =? key)%Z then Some v else table_get key rest
  end.

(** [table[key] = value]: the key is overwritten, or added at the end. *)
Fixpoint table_set (key : Z) (value : list Z) (table : HolidayTable)
  : HolidayTable :=
  match table with
  | [] => [(key, value)]
  | (k, v) :: rest =>
      if (k =? key)%Z then (k, value) :: rest
      else (k, v) :: table_set key value rest
  end.

(** [x || []] on an array or [undefined]: every array is truthy. *)
Definition or_empty (x : option (list Z)) : list Z :=
  match x with Some v => v | None => [] end.

Definition holidaysByMonth : HolidayTable :=
  [ (0, [1]); (3, [21; 23]); (4, [1; 26]); (7, [15]); (8, [7]);
    (9, [12]); (10, [2; 15; 20]); (11, [25]) ]%Z.

(** [year] and [month] are the integers that [getFullYear()] and
    [getMonth()] return. *)
Definition getHolidays (year month : Z) : list Z :=
  let t0 := holidaysByMonth in
  let t3 :=
    if (year =? 2026)%Z then
      let t1 :=
        if (month =? 1)%Z
        then table_set 1 (or_empty (table_get 1 t0) ++ [17%Z]) t0 else t0 in
      let t2 :=
        if (month =? 3)%Z
        then table_set 3 (or_empty (table_get 3 t1) ++ [3%Z]) t1 else t1 in
      if (month =? 5)%Z
      then table_set 5 (or_empty (table_get 5 t2) ++ [4%Z]) t2 else t2
    else t0 in
  or_empty (table_get month t3).

(** [holidays.includes(day)]. *)
Definition includes (day : Z) (holidays : list Z) : bool :=
  existsb (Z.eqb day) holidays.

(** The methods of [Date] that the code calls, on the time value of the
    date: parameters of the functions that read a calendar. *)
Record DateMethods : Type := mkDateMethods {
  getFullYear : Z -> Z;
  getMonth : Z -> Z;
  getDate : Z -> Z;
  getDay : Z -> Z
}.

Definition isHoliday (D : DateMethods) (date : Z) : bool :=
  let year := getFullYear D date in
  let month := getMonth D date in
  let day := getDate D date in
  let holidays := getHolidays year month in
  includes day holidays.

(** The calendar of the UTC time zone, to run the functions: the time value
    counts milliseconds from 1 January 1970, a Thursday. *)
Definition utc_days (t : Z) : Z := (t / 86400000)%Z.

Definition utc_civil (t : Z) : Z * Z * Z :=
  let z := (utc_days t + 719468)%Z in
  let era := (z / 146097)%Z in
  let doe := (z - era * 146097)%Z in
  let yoe := ((doe - doe / 1460 + doe / 36524 - doe / 146096) / 365)%Z in
  let doy := (doe - (365 * yoe + yoe / 4 - yoe / 100))%Z in
  let mp := ((5 * doy + 2) / 153)%Z in
  let d := (doy - (153 * mp + 2) / 5 + 1)%Z in
  let m := (if mp <? 10 then mp + 3 else mp - 9)%Z in
  let y := (yoe + era * 400 + (if m <=? 2 then 1 else 0))%Z in
  (y, (m - 1)%Z, d).

Definition utc : DateMethods :=
  {| getFullYear := fun t => fst (fst (utc_civil t));
     getMonth := fun t => snd (fst (utc_civil t));
     getDate := fun t => snd (utc_civil t);
     getDay := fun t => ((utc_days t + 4) mod 7)%Z |}.

(** [new Date(Date.UTC(year, month, day))] for a day of 2026, [month]
    counted from 0. *)
Definition date_2026 (month day : Z) : Z :=
  let before :=
    nth (Z.to_nat month) [0; 31; 59; 90; 120; 151; 181; 212; 243; 273; 304; 334]%Z 0%Z in
  ((20454 + before + day - 1) * 86400000)%Z.

(** ** ui/DayRow.tsx: the records that the handlers pass to [onUpdate] *)

Definition handleToggleFolga (day : DayRecord) : DayRecord :=
  {| date := date day;
     entrada := if negb (ehFolga day) then EmptyString else entrada day;
     saida := if negb (ehFolga day) then EmptyString else saida day;
     intervaloHoras := intervaloHoras day;
     ehFolga := negb (ehFolga day);
     ehFeriado := ehFeriado day |}.

Definition handleToggleFeriado (day : DayRecord) : DayRecord :=
  {| date := date day;
     entrada := entrada day;
     saida := saida day;
     intervaloHoras := intervaloHoras day;
     ehFolga := ehFolga day;
     ehFeriado := negb (ehFeriado day) |}.

(** ** ui/Layout.example.tsx: the pure parts of the component *)

Section Layout.

Variable D : DateMethods.

(** One call of the function given to [days.forEach]: the state is the pair
    of [weeks] and [currentWeek]. *)
Definition week_step (st : list (list DayRecord) * list DayRecord)
    (day : DayRecord) : list (list DayRecord) * list DayRecord :=
  let (weeks, currentWeek) := st in
  let (weeks', currentWeek') :=
    if (getDay D (date day) =? 0)%Z && (0 <? List.length currentWeek)%nat
    then (weeks ++ [currentWeek], [])
    else (weeks, currentWeek) in
  (weeks', currentWeek' ++ [day]).

Definition groupDaysByWeek (days : list DayRecord) : list (list DayRecord) :=
  if (List.length days =? 0)%nat then []
  else
    let (weeks, currentWeek) := fold_left week_step days ([], []) in
    if (0 <? List.length currentWeek)%nat then weeks ++ [currentWeek] else weeks.

(** [handleDayUpdate]: the function given to [setDays].  [getTime()] of a
    date is its time value. *)
Definition handleDayUpdate (updatedDay : DayRecord) (prev : list DayRecord)
  : list DayRecord :=
  map (fun d => if (date d =? date updatedDay)%Z then updatedDay else d) prev.

Definition weekDayMap (w : WeekDay) : Z :=
  match w with
  | domingo => 0 | segunda => 1 | terca => 2 | quarta => 3
  | quinta => 4 | sexta => 5 | sabado => 6
  end%Z.

(** [handleSettingsChange]: what the function given to [setDays] does to one
    day; [settings] are the settings of the component before the change. *)
Definition resyncDay (settings newSettings : Settings) (day : DayRecord)
  : DayRecord :=
  let folgaDayNumber := weekDayMap (folgaPadrao newSettings) in
  let dayOfWeek := getDay D (date day) in
  let isFolga := (dayOfWeek =? folgaDayNumber)%Z in
  let ehFeriado' := isHoliday D (date day) in
  let statusMudou :=
    negb (Bool.eqb (ehFolga day) isFolga)
    || negb (Bool.eqb (ehFeriado day) ehFeriado') in
  if statusMudou then
    {| date := date day;
       entrada := if isFolga then EmptyString else horaEntradaPadrao newSettings;
       saida := if isFolga then EmptyString else horaSaidaPadrao newSettings;
       intervaloHoras :=
         if isFolga then Num 0 else intervaloPadraoHoras newSettings;
       ehFolga := isFolga;
       ehFeriado := ehFeriado' |}
  else
    let isDefaultTime :=
      String.eqb (entrada day) (horaEntradaPadrao settings)
      && String.eqb (saida day) (horaSaidaPadrao settings) in
    if isDefaultTime && negb isFolga then
      {| date := date day;
         entrada := horaEntradaPadrao newSettings;
         saida := horaSaidaPadrao newSettings;
         intervaloHoras := intervaloPadraoHoras newSettings;
         ehFolga := ehFolga day;
         ehFeriado := ehFeriado day |}
    else day.

Definition handleSettingsChange (settings newSettings : Settings)
    (prev : list DayRecord) : list DayRecord :=
  map (resyncDay settings newSettings) prev.

End Layout.

(** ** ui/Summary.tsx: the values that the component computes *)

Definition Summary_inssValue (monthlySummary : MonthlySummary)
    (descontoINSS_arg : option number) : number :=
  match descontoINSS_arg with
  | Some given => given
  | None => descontoINSS monthlySummary
  end.

Definition Summary_valorLiquidoFinal (monthlySummary : MonthlySummary)
    (descontoINSS_arg : option number) : number :=
  sub (valorBruto monthlySummary)
      (Summary_inssValue monthlySummary descontoINSS_arg).

(** ** The code over IEEE-754 doubles *)

Module Binary64.

Local Open Scope float_scope.

(** The exact value of a double, [None] for [NaN] and the infinities. *)
Definition toQ (x : float) : option Q :=
  match Prim2SF x with
  | S754_zero _ => Some 0%Q
  | S754_finite s m e =>
      Some ((if s then -1 else 1) * inject_Z (Zpos m) * Qpower 2 e)%Q
  | S754_infinity _ | S754_nan => None
  end.

(** The double of an integer, exact below 2^53. *)
Definition ofZ (z : Z) : float :=
  match z with
  | Z0 => 0
  | Zpos _ => of_uint63 (Uint63.of_Z z)
  | Zneg p => - of_uint63 (Uint63.of_Z (Zpos p))
  end.


(** [Math.round(x)]: [NaN] and the infinities are returned as they are; from
    2^52 on every double is an integer; otherwise the integer
    [floor(x + 1/2)] of the exact value, with the sign of [x] when it is
    zero. *)
Definition Math_round (x : float) : float :=
  match toQ x with
  | None => x
  | Some q =>
      if 4503599627370496 <=? abs x then x
      else
        let n := Qfloor (q + (1 # 2)) in
        if (n =? 0)%Z then (if get_sign x then -0 else 0) else ofZ n
  end.

(** [Math.max(x, y)]: [NaN] if an operand is, and [+0] above [-0]. *)
Definition Math_max (x y : float) : float :=
  if is_nan x || is_nan y then nan
  else if x <? y then y
  else if y <? x then x
  else if get_sign x then y else x.

(** [Math.round(x * 100) / 100]. *)
Definition round2 (x : float) : float := Math_round (x * 100) / 100.

(** [Number(s)] on strings of digits, as [decimalNumber]. *)
Definition decimalNumber (s : string) : float :=
  match digits 0 s with
  | Some z => ofZ z
  | None => nan
  end.

Section Time.

Variable Number : string -> float.

Definition parseHourToMinutes (time : string) : float :=
  match map Number (split ":" time) with
  | hours :: minutes :: _ => hours * 60 + minutes
  | _ => nan
  end.

Definition calculateWorkedMinutes
    (entrada saida : string) (intervaloHoras : float) : float :=
  let entradaMinutes := parseHourToMinutes entrada in
  let saidaMinutes := parseHourToMinutes saida in
  let intervaloMinutes := intervaloHoras * 60 in
  let totalMinutes := saidaMinutes - entradaMinutes in
  let workedMinutes := totalMinutes - intervaloMinutes in
  Math_max 0 workedMinutes.

End Time.

Definition minutesToDecimalHours (minutes : float) : float :=
  let hours := minutes / 60 in
  Math_round (hours * 100) / 100.

Record DailyHoursResult : Type := mkDailyHoursResult {
  horasNormais : float;
  horasExtra50 : float;
  horasExtra100 : float
}.

Section Calculations.

Variable Number : string -> float.

Definition calculateDailyResult
    (entrada saida : string) (intervaloHoras : float)
    (ehFeriado ehFolga : bool) (jornadaPadraoHoras : float)
    : DailyHoursResult :=
  if not_string entrada || not_string saida then
    {| horasNormais := 0; horasExtra50 := 0; horasExtra100 := 0 |}
  else
    let minutosTrabalhadosTotal :=
      calculateWorkedMinutes Number entrada saida intervaloHoras in
    let horasTrabalhadasTotal :=
      minutesToDecimalHours minutosTrabalhadosTotal in
    if ehFeriado then
      {| horasNormais := 0;
         horasExtra50 := 0;
         horasExtra100 := horasTrabalhadasTotal |}
    else if ehFolga then
      {| horasNormais := 0;
         horasExtra50 := horasTrabalhadasTotal;
         horasExtra100 := 0 |}
    else if horasTrabalhadasTotal <=? jornadaPadraoHoras then
      {| horasNormais := horasTrabalhadasTotal;
         horasExtra50 := 0;
         horasExtra100 := 0 |}
    else
      let horasNormais' := jornadaPadraoHoras in
      let horasExtra50' := horasTrabalhadasTotal - jornadaPadraoHoras in
      {| horasNormais := horasNormais';
         horasExtra50 := horasExtra50';
         horasExtra100 := 0 |}.

End Calculations.

Definition calculateDSR
    (horasExtra50Total horasExtra100Total : float)
    (valorHoraExtra50 valorHoraExtra100 : float)
    (diasRepouso diasUteis : float) : float :=
  let valorHorasExtras50 := horasExtra50Total * valorHoraExtra50 in
  let valorHorasExtras100 := horasExtra100Total * valorHoraExtra100 in
  let valorTotalHorasExtras := valorHorasExtras50 + valorHorasExtras100 in
  if (diasUteis =? 0) || (diasRepouso =? 0) then
    0
  else
    let dsr := valorTotalHorasExtras * (diasRepouso / diasUteis) in
    Math_round (dsr * 100) / 100.

Definition calculateINSS (valorBruto : float) : float :=
  if valorBruto <=? 1412.00 then
    valorBruto * 0.075
  else if valorBruto <=? 2666.68 then
    1412.00 * 0.075 + (valorBruto - 1412.00) * 0.09
  else if valorBruto <=? 4000.03 then
    1412.00 * 0.075 + (2666.68 - 1412.00) * 0.09
    + (valorBruto - 2666.68) * 0.12
  else if valorBruto <=? 7786.02 then
    1412.00 * 0.075 + (2666.68 - 1412.00) * 0.09
    + (4000.03 - 2666.68) * 0.12 + (valorBruto - 4000.03) * 0.14
  else
    1412.00 * 0.075 + (2666.68 - 1412.00) * 0.09
    + (4000.03 - 2666.68) * 0.12 + (7786.02 - 4000.03) * 0.14.

(** The clock string [HH:mm] of a minute of the day. *)
Definition two_digits (n : nat) : string :=
  String (ascii_of_nat (48 + n / 10))
    (String (ascii_of_nat (48 + n mod 10)) EmptyString).

Definition clock (minute : nat) : string :=
  (two_digits (minute / 60) ++ ":" ++ two_digits (minute mod 60))%string.

(** A day from 00:00 to a minute of the day without a break, with the
    standard day of the aggregator, [220 / 30]: its worked hours, its
    classification, and the sum of the three buckets as
    [horasNormais + horasExtra50 + horasExtra100]. *)
Definition worked_until (minute : nat) : float :=
  minutesToDecimalHours
    (calculateWorkedMinutes decimalNumber "00:00" (clock minute) 0).

Definition day_until (minute : nat) (ehFeriado ehFolga : bool)
  : DailyHoursResult :=
  calculateDailyResult decimalNumber "00:00" (clock minute) 0
    ehFeriado ehFolga (220 / 30).

Definition buckets_sum (r : DailyHoursResult) : float :=
  horasNormais r + horasExtra50 r + horasExtra100 r.

End Binary64.

(** ** Definitions for the statements *)

(** The result of a day without work. *)
Definition zeroHours : DailyHoursResult :=
  {| horasNormais := Num 0; horasExtra50 := Num 0; horasExtra100 := Num 0 |}.

(** [calculateINSS] on a rational gross amount. *)
Definition INSS_Q (g : Q) : Q :=
  if Qle_bool g faixa1 then g * aliquota1
  else if Qle_bool g faixa2 then
    faixa1 * aliquota1 + (g - faixa1) * aliquota2
  else if Qle_bool g faixa3 then
    faixa1 * aliquota1 + (faixa2 - faixa1) * aliquota2
    + (g - faixa2) * aliquota3
  else if Qle_bool g faixa4 then
    faixa1 * aliquota1 + (faixa2 - faixa1) * aliquota2
    + (faixa3 - faixa2) * aliquota3 + (g - faixa3) * aliquota4
  else
    faixa1 * aliquota1 + (faixa2 - faixa1) * aliquota2
    + (faixa3 - faixa2) * aliquota3 + (faixa4 - faixa3) * aliquota4.

(** The progressive schedule in the words of the specification: a table of
    inclusive upper bounds with their marginal rates, each rate applied only
    to the slice of the gross amount that falls inside its bracket.  A
    bracket starts where the one before it ends; the first one of the table
    has no lower bound ([None]).  Above the last bound nothing accrues. *)
Definition bracket_table : list (Q * Q) :=
  [ (faixa1, aliquota1); (faixa2, aliquota2);
    (faixa3, aliquota3); (faixa4, aliquota4) ].

Definition slice (lower : option Q) (upper gross : Q) : Q :=
  match lower with
  | None => Qmin gross upper
  | Some lo => Qmax 0 (Qmin gross upper - lo)
  end.

Fixpoint progressive (lower : option Q) (table : list (Q * Q)) (gross : Q) : Q :=
  match table with
  | [] => 0
  | (upper, rate) :: rest =>
      rate * slice lower upper gross + progressive (Some upper) rest gross
  end.

Definition withholding_reference (gross : Q) : Q :=
  progressive None bracket_table gross.

(** The same schedule with the first bracket starting at 0. *)
Definition withholding_reference_from_zero (gross : Q) : Q :=
  progressive (Some 0) bracket_table gross.

(** A value with at most two decimals: a whole number of hundredths, which
    rounding to two decimals leaves as it is. *)
Definition two_decimals (x : number) : Prop :=
  (exists z : Z, x =n= Num (inject_Z z / 100)) /\ round2 x =n= x.

(** The seven fields of a summary. *)
Definition summary_fields (s : MonthlySummary) : list number :=
  [ horasNormaisMes s; horasExtra50Mes s; horasExtra100Mes s;
    dsrTotal s; valorBruto s; descontoINSS s; valorLiquido s ].

(** A day record of the documented input domain: a clock time is empty, or
    both clock times convert to numbers and the break is a number. *)
Definition finite_day (Number : string -> number) (d : DayRecord) : bool :=
  not_string (entrada d) || not_string (saida d) ||
  (isFinite (parseHourToMinutes Number (entrada d)) &&
   isFinite (parseHourToMinutes Number (saida d)) &&
   isFinite (intervaloHoras d)).

Definition finite_totals (acc : Totals) : bool :=
  isFinite (horasNormaisTotal acc) && isFinite (horasExtra50Total acc) &&
  isFinite (horasExtra100Total acc) &&
  isFinite (diasRepouso acc) && isFinite (diasUteis acc).

(** ** Definitions for the further properties *)

(** A string without the separator of clock times. *)
Fixpoint no_colon (s : string) : bool :=
  match s with
  | EmptyString => true
  | String c rest => negb (Ascii.eqb c ":") && no_colon rest
  end.

(** A number that is at least 0 ([NaN] is not), and one that is at most a
    bound. *)
Definition nonneg (x : number) : Prop :=
  match x with Num q => 0 <= q | NaN => False end.

Definition at_most (bound : Q) (x : number) : Prop :=
  match x with Num q => q <= bound | NaN => False end.

(** The classifier on the fields of a day record, as the aggregator calls
    it. *)
Definition dailyResultOf (Number : string -> number) (j : number)
    (d : DayRecord) : DailyHoursResult :=
  calculateDailyResult Number (entrada d) (saida d) (intervaloHoras d)
    (ehFeriado d) (ehFolga d) j.

(** A day that counts as rest in the aggregator, and a day without a
    recorded shift. *)
Definition rest_day (d : DayRecord) : bool := ehFolga d || ehFeriado d.

Definition no_shift (d : DayRecord) : bool :=
  not_string (entrada d) || not_string (saida d).

(** Accumulators that are all numbers and at least 0. *)
Definition nonneg_totals (acc : Totals) : Prop :=
  nonneg (horasNormaisTotal acc) /\ nonneg (horasExtra50Total acc) /\
  nonneg (horasExtra100Total acc) /\
  nonneg (diasRepouso acc) /\ nonneg (diasUteis acc).

(** The accumulators before the first day. *)
Definition totals0 : Totals :=
  {| horasNormaisTotal := Num 0; horasExtra50Total := Num 0;
     horasExtra100Total := Num 0; diasRepouso := Num 0; diasUteis := Num 0 |}.

(** The ceiling of the withholding: what is owed at the top bound. *)
Definition teto_INSS : Q := INSS_Q faixa4.

(** The number of days of a month counted from 0, February taken short. *)
Definition month_length (month : Z) : Z :=
  nth (Z.to_nat month) [31; 28; 31; 30; 31; 30; 31; 31; 30; 31; 30; 31]%Z 0%Z.

(** The holidays that [getHolidays] knows for 2026 only: Carnival,
    Good Friday and Corpus Christi. *)
Definition movable_2026 (month : Z) : list Z :=
  (if month =? 1 then [17] else if month =? 3 then [3]
   else if month =? 5 then [4] else [])%Z.

(** Weeks as [groupDaysByWeek] builds them. *)
Definition is_sunday (D : DateMethods) (d : DayRecord) : bool :=
  (getDay D (date d) =? 0)%Z.

Definition sunday_only_first (D : DateMethods) (week : list DayRecord) : Prop :=
  Forall (fun d => is_sunday D d = false) (tl week).

Definition starts_on_sunday (D : DateMethods) (week : list DayRecord) : Prop :=
  match week with
  | d :: _ => is_sunday D d = true
  | [] => False
  end.

(** What the loop of [groupDaysByWeek] keeps true of its state after the
    days [done]: the closed weeks and the current one hold the days seen, in
    order; no closed week is empty; a Sunday is only ever the first day of a
    week; every week after the first one starts on a Sunday; the current
    week is empty only before the first day. *)
Definition weeks_invariant (D : DateMethods) (done : list DayRecord)
    (st : list (list DayRecord) * list DayRecord) : Prop :=
  let (weeks, currentWeek) := st in
  List.concat weeks ++ currentWeek = done /\
  Forall (fun w => w <> []) weeks /\
  Forall (sunday_only_first D) (weeks ++ [currentWeek]) /\
  Forall (starts_on_sunday D) (tl (weeks ++ [currentWeek])) /\
  (done <> [] -> currentWeek <> []).

(** The flags of a day differ from what the calendar and the new settings
    say ([statusMudou] in [handleSettingsChange]). *)
Definition status_changed (D : DateMethods) (newSettings : Settings)
    (day : DayRecord) : bool :=
  negb (Bool.eqb (ehFolga day)
          (getDay D (date day) =? weekDayMap (folgaPadrao newSettings))%Z)
  || negb (Bool.eqb (ehFeriado day) (isHoliday D (date day))).

(** A day with its clock times emptied. *)
Definition without_times (day : DayRecord) : DayRecord :=
  {| date := date day; entrada := EmptyString; saida := EmptyString;
     intervaloHoras := intervaloHoras day;
     ehFolga := ehFolga day; ehFeriado := ehFeriado day |}.

(** A day record with the default shift 08:00-17:00 and one hour of break,
    on a day of 2026. *)
Definition dia_2026 (month day : Z) (folga feriado : bool) : DayRecord :=
  {| date := date_2026 month day; entrada := "08:00"; saida := "17:00";
     intervaloHoras := Num 1; ehFolga := folga; ehFeriado := feriado |}.

(** Thursday 1 January to Wednesday 14 January 2026. *)
Definition quinzena_2026 : list DayRecord :=
  map (fun day => dia_2026 0 day false false)
    [1; 2; 3; 4; 5; 6; 7; 8; 9; 10; 11; 12; 13; 14]%Z.

(** ** Running the code on a small month *)

Definition dia (e s : string) (i : Q) (folga feriado : bool) : DayRecord :=
  {| date := 0; entrada := e; saida := s; intervaloHoras := Num i;
     ehFolga := folga; ehFeriado := feriado |}.

Definition config (salario : Q) : Settings :=
  {| salarioMensal := Num salario;
     horaEntradaPadrao := "08:00"; horaSaidaPadrao := "17:00";
     intervaloPadraoHoras := Num 1;
     folgaPadrao := domingo; escala := escala_6x1 |}.

(** A month of three days: an ordinary day with overtime, a worked rest day
    and a holiday without work. *)
Definition mes_exemplo : list DayRecord :=
  [ dia "08:00" "18:30" 1 false false;
    dia "08:00" "12:00" 0 true false;
    dia "" "" 0 false true ].

(** A month of one day: ten hours worked on the weekly rest day. *)
Definition mes_folga_trabalhada : list DayRecord :=
  [ dia "08:00" "18:00" 0 true false ].

(** A month with a clock time that does not convert, and a month of two
    ordinary days. *)
Definition mes_hora_invalida : list DayRecord :=
  [ dia "08:00" "17:00" 1 false false; dia "8h30" "17:00" 1 false false ].

Definition mes_sem_repouso : list DayRecord :=
  [ dia "08:00" "19:00" 1 false false; dia "08:00" "17:00" 1 false false ].

(** A month in which nothing was recorded. *)
Definition mes_sem_registro : list DayRecord :=
  [ dia "" "" 0 false false; dia "" "" 0 true false; dia "08:00" "" 1 false true ].

(** The summary of the example in the documentation of
    [calculateMonthlyPayroll]. *)
Definition summary_of_docstring : MonthlySummary :=
  {| horasNormaisMes := Num 176;
     horasExtra50Mes := Num 10;
     horasExtra100Mes := Num 2;
     dsrTotal := Num 50;
     valorBruto := Num 2450;
     descontoINSS := Num 200;
     valorLiquido := Num 2250 |}.

(** Rationals in lowest terms, to read computed values. *)
Definition reduced (x : number) : number :=
  match x with Num q => Num (Qred q) | NaN => NaN end.

Example parse_0830 : parseHourToMinutes decimalNumber "08:30" = Num 510.
Proof. reflexivity. Qed.

Example parse_2359 : parseHourToMinutes decimalNumber "23:59" = Num 1439.
Proof. reflexivity. Qed.

Example parse_no_colon : parseHourToMinutes decimalNumber "0830" = NaN.
Proof. reflexivity. Qed.

Example worked_8_17 :
  reduced (calculateWorkedMinutes decimalNumber "08:00" "17:00" (Num 1)) = Num 480.
Proof. reflexivity. Qed.

Example worked_break_too_long :
  reduced (calculateWorkedMinutes decimalNumber "08:00" "09:00" (Num 2)) = Num 0.
Proof. reflexivity. Qed.

Example hours_510 : reduced (minutesToDecimalHours (Num 510)) = Num (17 # 2).
Proof. reflexivity. Qed.

(** * Properties *)

(** ** Rounding *)

Lemma Qfloor_unique (x : Q) (z : Z) :
  inject_Z z <= x -> x < inject_Z (z + 1) -> Qfloor x = z.
Proof.
  intros Hlo Hhi.
  apply Z.le_antisymm.
  - apply Z.lt_succ_r. rewrite Zlt_Qlt.
    apply Qle_lt_trans with x; [apply Qfloor_le | exact Hhi].
  - rewrite <- (Qfloor_Z z). apply Qfloor_resp_le. exact Hlo.
Qed.

Lemma Qfloor_half (z : Z) : Qfloor (inject_Z z + (1 # 2)) = z.
Proof.
  apply Qfloor_unique.
  - lra.
  - rewrite inject_Z_plus. change (inject_Z 1) with 1. lra.
Qed.

Lemma Qround2_cents (z : Z) : Qround2 (inject_Z z / 100) == inject_Z z / 100.
Proof.
  unfold Qround2.
  assert (E : inject_Z z / 100 * 100 + (1 # 2) == inject_Z z + (1 # 2)) by (field).
  rewrite (Qfloor_comp _ _ E), Qfloor_half. reflexivity.
Qed.

Lemma Qround2_idem (q : Q) : Qround2 (Qround2 q) == Qround2 q.
Proof. unfold Qround2 at 2 3. apply Qround2_cents. Qed.

Lemma round2_Num (q : Q) : round2 (Num q) = Num (Qround2 q).
Proof. reflexivity. Qed.

Lemma minutesToDecimalHours_Num (m : Q) :
  minutesToDecimalHours (Num m) = Num (Qround2 (m / 60)).
Proof. reflexivity. Qed.

(** ** Equality of values *)

Lemma eqn_refl (x : number) : x =n= x.
Proof. destruct x; simpl; [exact I | reflexivity]. Qed.

Lemma eqn_sym (x y : number) : x =n= y -> y =n= x.
Proof. destruct x, y; simpl; auto. intros H; symmetry; exact H. Qed.

Lemma eqn_trans (x y z : number) : x =n= y -> y =n= z -> x =n= z.
Proof.
  destruct x, y, z; simpl; auto; try contradiction.
  intros H1 H2. rewrite H1. exact H2.
Qed.

#[global] Instance eqn_equivalence : Equivalence eqn.
Proof.
  split; [exact eqn_refl | exact eqn_sym | exact eqn_trans].
Qed.

Lemma not_string_true (s : string) : not_string s = true <-> s = EmptyString.
Proof. destruct s; simpl; split; intros H; congruence. Qed.

Lemma not_string_false (s : string) : not_string s = false <-> s <> EmptyString.
Proof. destruct s; simpl; split; intros H; congruence. Qed.

(** ** time.ts: worked minutes *)

Lemma Math_max_0_Num (d : Q) : Math_max (Num 0) (Num d) =n= Num (Qmax 0 d).
Proof.
  simpl. destruct (Qle_bool 0 d) eqn:E; simpl.
  - apply Qle_bool_iff in E. rewrite Q.max_r; [reflexivity | exact E].
  - assert (H : ~ 0 <= d) by (rewrite <- Qle_bool_iff, E; discriminate).
    rewrite Q.max_l; [reflexivity | lra].
Qed.

Lemma Math_max_0_nonneg (x : number) :
  match Math_max (Num 0) x with Num w => 0 <= w | NaN => x = NaN end.
Proof.
  destruct x as [|d]; simpl; [reflexivity|].
  destruct (Qle_bool 0 d) eqn:E.
  - apply Qle_bool_iff. exact E.
  - lra.
Qed.

(** C7.  For all clock strings and every break, [calculateWorkedMinutes]
    returns a value (it is a total function); the value is never negative: it
    is a number at least 0, or [NaN] exactly when the span less the break is
    [NaN] (a clock string that does not convert); and whenever the two clock
    strings convert to the minute counts [a] and [b] and the break is the
    number [i], it is max(0, (b - a) - i * 60), also when the break is longer
    than the span. *)
Theorem calculateWorkedMinutes_clamped :
  forall (Number : string -> number) (entrada saida : string)
         (intervaloHoras : number),
    let span :=
      sub (sub (parseHourToMinutes Number saida)
               (parseHourToMinutes Number entrada))
          (mul intervaloHoras (Num 60)) in
    match calculateWorkedMinutes Number entrada saida intervaloHoras with
    | Num w => 0 <= w
    | NaN => span = NaN
    end /\
    (forall a b i : Q,
        parseHourToMinutes Number entrada = Num a ->
        parseHourToMinutes Number saida = Num b ->
        intervaloHoras = Num i ->
        calculateWorkedMinutes Number entrada saida intervaloHoras
        =n= Num (Qmax 0 ((b - a) - i * 60))).
Proof.
  intros Number entrada saida intervaloHoras span. split.
  - apply Math_max_0_nonneg.
  - intros a b i Ha Hb Hi. unfold calculateWorkedMinutes.
    rewrite Ha, Hb, Hi. apply Math_max_0_Num.
Qed.

Lemma calculateWorkedMinutes_clamped_witness :
  calculateWorkedMinutes decimalNumber "08:00" "09:00" (Num 2)
  =n= Num (Qmax 0 ((540 - 480) - 2 * 60)).
Proof.
  apply (calculateWorkedMinutes_clamped decimalNumber "08:00" "09:00" (Num 2));
    reflexivity.
Defined.

(** ** calculations.ts: the daily classifier *)

Lemma calculateDailyResult_empty Number e s i hol folga j :
  e = EmptyString \/ s = EmptyString ->
  calculateDailyResult Number e s i hol folga j = zeroHours.
Proof.
  intros [H | H]; subst; unfold calculateDailyResult; simpl.
  - reflexivity.
  - rewrite orb_true_r. reflexivity.
Qed.

Lemma calculateDailyResult_worked Number e s i hol folga j :
  e <> EmptyString -> s <> EmptyString ->
  calculateDailyResult Number e s i hol folga j =
  let w := minutesToDecimalHours (calculateWorkedMinutes Number e s i) in
  if hol then
    {| horasNormais := Num 0; horasExtra50 := Num 0; horasExtra100 := w |}
  else if folga then
    {| horasNormais := Num 0; horasExtra50 := w; horasExtra100 := Num 0 |}
  else if le w j then
    {| horasNormais := w; horasExtra50 := Num 0; horasExtra100 := Num 0 |}
  else
    {| horasNormais := j; horasExtra50 := sub w j; horasExtra100 := Num 0 |}.
Proof.
  intros He Hs. apply not_string_false in He, Hs.
  unfold calculateDailyResult. rewrite He, Hs. reflexivity.
Qed.

(** C1.  [calculateDailyResult] classifies the day in strict precedence: an
    empty clock-in or clock-out gives the all-zero result; otherwise, with
    [workedHours] the worked minutes converted to decimal hours, a holiday
    puts them all at 100% whatever the rest-day flag is, a rest day that is
    not a holiday puts them all at 50%, and an ordinary day with worked hours
    [w] and standard hours [j] gives normal = min(w, j), 50% = max(0, w - j)
    and 100% = 0. *)
Theorem calculateDailyResult_classification :
  forall (Number : string -> number) (entrada saida : string)
         (intervaloHoras : number) (ehFeriado ehFolga : bool)
         (jornadaPadraoHoras : number),
    let r := calculateDailyResult Number entrada saida intervaloHoras
               ehFeriado ehFolga jornadaPadraoHoras in
    let workedHours :=
      minutesToDecimalHours
        (calculateWorkedMinutes Number entrada saida intervaloHoras) in
    (entrada = EmptyString \/ saida = EmptyString -> r = zeroHours) /\
    (entrada <> EmptyString -> saida <> EmptyString ->
     (ehFeriado = true ->
      horasExtra100 r = workedHours /\
      horasNormais r = Num 0 /\ horasExtra50 r = Num 0) /\
     (ehFeriado = false -> ehFolga = true ->
      horasExtra50 r = workedHours /\
      horasNormais r = Num 0 /\ horasExtra100 r = Num 0) /\
     (ehFeriado = false -> ehFolga = false ->
      forall w j : Q,
        workedHours = Num w -> jornadaPadraoHoras = Num j ->
        horasNormais r =n= Num (Qmin w j) /\
        horasExtra50 r =n= Num (Qmax 0 (w - j)) /\
        horasExtra100 r = Num 0)).
Proof.
  intros Number entrada saida intervaloHoras ehFeriado ehFolga
         jornadaPadraoHoras r workedHours.
  split; [apply calculateDailyResult_empty|].
  intros He Hs. subst r.
  rewrite (calculateDailyResult_worked _ _ _ _ _ _ _ He Hs).
  fold workedHours. cbv zeta.
  split; [|split].
  - intros ->. simpl. auto.
  - intros -> ->. simpl. auto.
  - intros -> -> w j Hw Hj. rewrite Hw, Hj. simpl.
    destruct (Qle_bool w j) eqn:E; simpl.
    + apply Qle_bool_iff in E.
      rewrite Q.min_l by exact E. rewrite Q.max_l by lra.
      repeat split; reflexivity.
    + assert (H : ~ w <= j) by (rewrite <- Qle_bool_iff, E; discriminate).
      rewrite Q.min_r by lra. rewrite Q.max_r by lra.
      repeat split; reflexivity.
Qed.

Lemma calculateDailyResult_classification_witness :
  let r := calculateDailyResult decimalNumber "08:00" "17:00" (Num 1)
             false false (Num (733 # 100)) in
  horasNormais r =n= Num (733 # 100) /\
  horasExtra50 r =n= Num (67 # 100) /\
  horasExtra100 r = Num 0.
Proof.
  intros r.
  destruct (calculateDailyResult_classification decimalNumber
              "08:00" "17:00" (Num 1) false false (Num (733 # 100)))
    as [_ H].
  destruct (H ltac:(discriminate) ltac:(discriminate)) as (_ & _ & H3).
  destruct (H3 eq_refl eq_refl _ _ eq_refl eq_refl) as (Hn & H50 & H100).
  split; [|split].
  - eapply eqn_trans; [exact Hn|]. vm_compute. reflexivity.
  - eapply eqn_trans; [exact H50|]. vm_compute. reflexivity.
  - exact H100.
Defined.

(** The two scenarios of the specification for the daily classifier. *)
Example scenario_ordinary_day :
  let r := calculateDailyResult decimalNumber "08:00" "17:00" (Num 1)
             false false (Num (733 # 100)) in
  minutesToDecimalHours
    (calculateWorkedMinutes decimalNumber "08:00" "17:00" (Num 1)) =n= Num 8 /\
  horasNormais r =n= Num (733 # 100) /\
  horasExtra50 r =n= Num (67 # 100) /\
  horasExtra100 r =n= Num 0.
Proof. repeat apply conj; vm_compute; reflexivity. Qed.

Example scenario_holiday :
  let r := calculateDailyResult decimalNumber "08:00" "12:00" (Num 0)
             true true (Num (733 # 100)) in
  horasNormais r =n= Num 0 /\
  horasExtra50 r =n= Num 0 /\
  horasExtra100 r =n= Num 4.
Proof. repeat apply conj; vm_compute; reflexivity. Qed.

(** ** calculations.ts: DSR *)

Lemma strict_eq_zero (x : number) :
  strict_eq x (Num 0) = true <-> x =n= Num 0.
Proof.
  destruct x as [|q]; simpl.
  - split; [discriminate | contradiction].
  - apply Qeq_bool_iff.
Qed.

Lemma calculateDSR_guard (h50 h100 r50 r100 restDays workingDays : number) :
  workingDays =n= Num 0 \/ restDays =n= Num 0 ->
  calculateDSR h50 h100 r50 r100 restDays workingDays = Num 0.
Proof.
  intros H. unfold calculateDSR.
  destruct H as [H | H]; apply strict_eq_zero in H; rewrite H.
  - reflexivity.
  - rewrite orb_true_r. reflexivity.
Qed.

Lemma calculateDSR_Num (a b c d r u : Q) :
  ~ u == 0 -> ~ r == 0 ->
  calculateDSR (Num a) (Num b) (Num c) (Num d) (Num r) (Num u)
  = Num (Qround2 ((a * c + b * d) * (r / u))).
Proof.
  intros Hu Hr. unfold calculateDSR. simpl.
  destruct (Qeq_bool u 0) eqn:Eu;
    [apply Qeq_bool_iff in Eu; contradiction|].
  destruct (Qeq_bool r 0) eqn:Er;
    [apply Qeq_bool_iff in Er; contradiction|].
  reflexivity.
Qed.

Lemma calculateDSR_finite (a b c d r u : Q) :
  isFinite (calculateDSR (Num a) (Num b) (Num c) (Num d) (Num r) (Num u))
  = true.
Proof.
  destruct (Qeq_dec u 0) as [Hu | Hu].
  - rewrite calculateDSR_guard; [reflexivity | left; exact Hu].
  - destruct (Qeq_dec r 0) as [Hr | Hr].
    + rewrite calculateDSR_guard; [reflexivity | right; exact Hr].
    + rewrite calculateDSR_Num by assumption. reflexivity.
Qed.

Example calculateDSR_5_19 :
  reduced (calculateDSR (Num 10) (Num 2) (Num 15) (Num 20) (Num 5) (Num 19))
  = Num 50.
Proof. reflexivity. Qed.

(** ** calculations.ts: the INSS withholding *)

Lemma calculateINSS_Num (g : Q) : calculateINSS (Num g) = Num (INSS_Q g).
Proof.
  unfold calculateINSS, INSS_Q, le.
  destruct (Qle_bool g faixa1); [reflexivity|].
  destruct (Qle_bool g faixa2); [reflexivity|].
  destruct (Qle_bool g faixa3); [reflexivity|].
  destruct (Qle_bool g faixa4); reflexivity.
Qed.

Lemma Qle_bool_cases (x y : Q) :
  (Qle_bool x y = true /\ x <= y) \/ (Qle_bool x y = false /\ y < x).
Proof.
  destruct (Qle_bool x y) eqn:E.
  - left. split; [reflexivity | apply Qle_bool_iff; exact E].
  - right. split; [reflexivity|].
    apply Qnot_le_lt. rewrite <- Qle_bool_iff, E. discriminate.
Qed.

(** Case analysis on the bracket a gross amount falls in, leaving the bounds
    as hypotheses. *)
Ltac bracket_cases g :=
  destruct (Qle_bool_cases g faixa1) as [[-> ?] | [-> ?]];
  [| destruct (Qle_bool_cases g faixa2) as [[-> ?] | [-> ?]];
     [| destruct (Qle_bool_cases g faixa3) as [[-> ?] | [-> ?]];
        [| destruct (Qle_bool_cases g faixa4) as [[-> ?] | [-> ?]] ] ] ].

Ltac table_values :=
  unfold faixa1, faixa2, faixa3, faixa4,
         aliquota1, aliquota2, aliquota3, aliquota4 in *.

Lemma INSS_Q_monotone (g1 g2 : Q) : g1 <= g2 -> INSS_Q g1 <= INSS_Q g2.
Proof.
  intros H. unfold INSS_Q.
  bracket_cases g1; bracket_cases g2; table_values; lra.
Qed.

Lemma INSS_Q_cap (g : Q) : faixa4 < g -> INSS_Q g = INSS_Q faixa4.
Proof.
  intros H. unfold INSS_Q at 1.
  bracket_cases g; table_values; try lra. reflexivity.
Qed.

(** Names every [Qmin] and [Qmax] of the goal, keeping only what
    [Q.min_spec] and [Q.max_spec] say of them, and splits the cases. *)
Ltac minmax_cases :=
  repeat match goal with
    | |- context [Qmin ?a ?b] =>
        let m := fresh "m" in
        pose proof (Q.min_spec a b); set (m := Qmin a b) in *; clearbody m
    | |- context [Qmax ?a ?b] =>
        let m := fresh "m" in
        pose proof (Q.max_spec a b); set (m := Qmax a b) in *; clearbody m
    end;
  repeat match goal with
    | H : _ \/ _ |- _ => destruct H as [[? ?] | [? ?]]
    end.

Lemma INSS_Q_reference (g : Q) : INSS_Q g == withholding_reference g.
Proof.
  unfold withholding_reference, bracket_table, progressive, slice, INSS_Q.
  bracket_cases g; table_values; minmax_cases; lra.
Qed.

Lemma reference_from_zero (g : Q) :
  0 <= g -> withholding_reference g == withholding_reference_from_zero g.
Proof.
  intros H.
  unfold withholding_reference, withholding_reference_from_zero,
         bracket_table, progressive, slice.
  table_values; minmax_cases; lra.
Qed.

(** C2.  [calculateINSS] is the progressive four-bracket schedule: on every
    gross amount it equals the reference that applies each marginal rate
    (7.5% up to 1412.00, 9% up to 2666.68, 12% up to 4000.03, 14% up to
    7786.02) to the slice of the gross inside its bracket, lower brackets
    taxed in full at their own rates; above 7786.02 it equals
    [calculateINSS 7786.02]; and nothing is rounded inside (the reference is
    exact, and at 1000.01 the result has more than two decimals).  For a
    gross that is not negative the reference is the same with the first
    bracket starting at 0. *)
Theorem calculateINSS_progressive :
  (forall g : Q, calculateINSS (Num g) =n= Num (withholding_reference g)) /\
  (forall g : Q,
      faixa4 < g -> calculateINSS (Num g) = calculateINSS (Num faixa4)) /\
  (forall g : Q,
      0 <= g ->
      withholding_reference g == withholding_reference_from_zero g) /\
  ~ round2 (calculateINSS (Num (100001 # 100)))
    =n= calculateINSS (Num (100001 # 100)).
Proof.
  split; [|split; [|split]].
  - intros g. rewrite calculateINSS_Num. apply INSS_Q_reference.
  - intros g H. rewrite !calculateINSS_Num, (INSS_Q_cap g H). reflexivity.
  - exact reference_from_zero.
  - vm_compute. discriminate.
Qed.

Lemma calculateINSS_progressive_witness :
  calculateINSS (Num 10000) = calculateINSS (Num faixa4) /\
  withholding_reference 3000 == withholding_reference_from_zero 3000.
Proof.
  destruct calculateINSS_progressive as (_ & Hcap & Hzero & _).
  split.
  - apply Hcap. reflexivity.
  - apply Hzero. discriminate.
Defined.

(** C6.  The withholding is monotone: for gross amounts [g1 < g2],
    [calculateINSS g1 <= calculateINSS g2]. *)
Theorem calculateINSS_monotone :
  forall g1 g2 : Q,
    g1 < g2 -> le (calculateINSS (Num g1)) (calculateINSS (Num g2)) = true.
Proof.
  intros g1 g2 H. rewrite !calculateINSS_Num. simpl.
  apply Qle_bool_iff, INSS_Q_monotone, Qlt_le_weak, H.
Qed.

Lemma calculateINSS_monotone_witness :
  le (calculateINSS (Num 1412)) (calculateINSS (Num (141201 # 100))) = true.
Proof. apply calculateINSS_monotone. reflexivity. Defined.

(** C5, as the specification states it: [calculateINSS 1412.00] is 105.90
    and [calculateINSS 2666.68] is 228.69.  The second figure is not what the
    bracket table gives. *)
Lemma calculateINSS_scenario_as_stated_fails :
  ~ (calculateINSS (Num 1412) =n= Num (10590 # 100) /\
     calculateINSS (Num (266668 # 100)) =n= Num (22869 # 100)).
Proof. intros [_ H]. vm_compute in H. discriminate. Qed.

(** ** Finite values *)

Lemma isFinite_Num (x : number) : isFinite x = true -> exists q, x = Num q.
Proof. destruct x as [|q]; [discriminate | intros _; exists q; reflexivity]. Qed.

Lemma isFinite_lift2 (f : Q -> Q -> Q) (x y : number) :
  isFinite x = true -> isFinite y = true -> isFinite (lift2 f x y) = true.
Proof. destruct x, y; simpl; congruence. Qed.

Lemma isFinite_add (x y : number) :
  isFinite x = true -> isFinite y = true -> isFinite (add x y) = true.
Proof. apply isFinite_lift2. Qed.

Lemma isFinite_sub (x y : number) :
  isFinite x = true -> isFinite y = true -> isFinite (sub x y) = true.
Proof. apply isFinite_lift2. Qed.

Lemma isFinite_mul (x y : number) :
  isFinite x = true -> isFinite y = true -> isFinite (mul x y) = true.
Proof. apply isFinite_lift2. Qed.

Lemma isFinite_round2 (x : number) :
  isFinite x = true -> isFinite (round2 x) = true.
Proof. destruct x; [discriminate | reflexivity]. Qed.

Lemma isFinite_Math_max (x y : number) :
  isFinite x = true -> isFinite y = true -> isFinite (Math_max x y) = true.
Proof.
  destruct x as [|a], y as [|b]; simpl; try congruence.
  destruct (Qle_bool a b); reflexivity.
Qed.

Lemma isFinite_minutesToDecimalHours (m : number) :
  isFinite m = true -> isFinite (minutesToDecimalHours m) = true.
Proof. destruct m; [discriminate | reflexivity]. Qed.

Lemma isFinite_calculateINSS (g : number) : isFinite (calculateINSS g) = true.
Proof.
  destruct g as [|q]; [reflexivity|]. rewrite calculateINSS_Num. reflexivity.
Qed.

Lemma isFinite_calculateDSR (h50 h100 r50 r100 r u : number) :
  isFinite h50 = true -> isFinite h100 = true ->
  isFinite r50 = true -> isFinite r100 = true ->
  isFinite r = true -> isFinite u = true ->
  isFinite (calculateDSR h50 h100 r50 r100 r u) = true.
Proof.
  intros H1 H2 H3 H4 H5 H6.
  apply isFinite_Num in H1, H2, H3, H4, H5, H6.
  destruct H1 as [? ->], H2 as [? ->], H3 as [? ->], H4 as [? ->],
           H5 as [? ->], H6 as [? ->].
  apply calculateDSR_finite.
Qed.

Create HintDb finite.

#[local] Hint Resolve isFinite_add isFinite_sub isFinite_mul isFinite_round2
  isFinite_Math_max isFinite_minutesToDecimalHours isFinite_calculateINSS
  isFinite_calculateDSR : finite.

Lemma round2_two_decimals (x : number) :
  isFinite x = true -> two_decimals (round2 x).
Proof.
  intros H. apply isFinite_Num in H. destruct H as [q ->].
  rewrite round2_Num. split.
  - exists (Qfloor (q * 100 + (1 # 2))). simpl. reflexivity.
  - rewrite round2_Num. simpl. apply Qround2_idem.
Qed.

(** ** calculations.ts: the monthly aggregation *)

Lemma calculateWorkedMinutes_finite Number e s i :
  isFinite (parseHourToMinutes Number e) = true ->
  isFinite (parseHourToMinutes Number s) = true ->
  isFinite i = true ->
  isFinite (calculateWorkedMinutes Number e s i) = true.
Proof.
  intros He Hs Hi. unfold calculateWorkedMinutes. auto 8 with finite.
Qed.

Lemma calculateDailyResult_finite Number d (j : Q) :
  finite_day Number d = true ->
  let r := calculateDailyResult Number (entrada d) (saida d)
             (intervaloHoras d) (ehFeriado d) (ehFolga d) (Num j) in
  isFinite (horasNormais r) = true /\
  isFinite (horasExtra50 r) = true /\
  isFinite (horasExtra100 r) = true.
Proof.
  unfold finite_day, calculateDailyResult.
  destruct (not_string (entrada d) || not_string (saida d)); simpl.
  - auto.
  - intros H. apply andb_prop in H. destruct H as [H Hi].
    apply andb_prop in H. destruct H as [He Hs].
    assert (Hw : isFinite
                   (minutesToDecimalHours
                      (calculateWorkedMinutes Number (entrada d) (saida d)
                         (intervaloHoras d))) = true)
      by auto using calculateWorkedMinutes_finite with finite.
    destruct (ehFeriado d); [simpl; auto|].
    destruct (ehFolga d); [simpl; auto|].
    destruct (le _ _); simpl; auto with finite.
Qed.

Lemma accumulate_finite Number (j : Q) acc d :
  finite_totals acc = true -> finite_day Number d = true ->
  finite_totals (accumulate Number (Num j) acc d) = true.
Proof.
  intros Hacc Hd.
  destruct (calculateDailyResult_finite Number d j Hd) as (Hn & H50 & H100).
  unfold finite_totals in *.
  repeat (apply andb_prop in Hacc; destruct Hacc as [Hacc ?]).
  unfold accumulate; simpl.
  repeat (apply andb_true_intro; split); auto with finite;
    destruct (ehFolga d || ehFeriado d); auto with finite.
Qed.

(** The loop invariant: on days of the input domain the five accumulators
    stay numbers. *)
Lemma fold_accumulate_finite Number (j : Q) days :
  forallb (finite_day Number) days = true ->
  forall acc, finite_totals acc = true ->
  finite_totals (fold_left (accumulate Number (Num j)) days acc) = true.
Proof.
  induction days as [|d days IH]; simpl; intros Hdays acc Hacc.
  - exact Hacc.
  - apply andb_prop in Hdays. destruct Hdays as [Hd Hdays].
    apply IH; [exact Hdays|]. apply accumulate_finite; assumption.
Qed.

Lemma round2_NaN_or_two_decimals (x : number) :
  round2 x = NaN \/ two_decimals (round2 x).
Proof.
  destruct x as [|q]; [left; reflexivity | right].
  apply round2_two_decimals. reflexivity.
Qed.

(** C8.  Every field of the summary that [calculateMonthlySummary] returns
    (the three hour totals, the DSR, the gross, the withholding and the net)
    is rounded to two decimals.  For every list of day records and every
    settings value a field is a whole number of hundredths that rounding to
    two decimals leaves unchanged, unless it is [NaN]; and on day records of
    the input domain (clock times empty or convertible, numeric breaks) with
    a numeric salary no field is [NaN]. *)
Theorem calculateMonthlySummary_two_decimals :
  forall (Number : string -> number) (days : list DayRecord)
         (settings : Settings),
    let s := calculateMonthlySummary Number days settings in
    Forall (fun f => f = NaN \/ two_decimals f) (summary_fields s) /\
    (forallb (finite_day Number) days = true ->
     isFinite (salarioMensal settings) = true ->
     Forall two_decimals (summary_fields s)).
Proof.
  intros Number days settings s. subst s.
  unfold calculateMonthlySummary, summary_fields.
  cbv zeta.
  cbn [horasNormaisMes horasExtra50Mes horasExtra100Mes dsrTotal valorBruto
       descontoINSS valorLiquido].
  split.
  - repeat apply Forall_cons; try apply Forall_nil;
      apply round2_NaN_or_two_decimals.
  - intros Hdays Hsal.
    change (div (Num 220) (Num 30)) with (Num (220 / 30)).
    set (acc := fold_left _ days _).
    assert (Hacc : finite_totals acc = true)
      by (apply fold_accumulate_finite; [exact Hdays | reflexivity]).
    unfold finite_totals in Hacc.
    repeat (apply andb_prop in Hacc; destruct Hacc as [Hacc ?]).
    assert (Hvalor : isFinite (div (salarioMensal settings) (Num 220)) = true).
    { apply isFinite_Num in Hsal. destruct Hsal as [sal ->]. reflexivity. }
    assert (Hc15 : isFinite (Num (15 # 10)) = true) by reflexivity.
    assert (Hc2 : isFinite (Num 2) = true) by reflexivity.
    repeat apply Forall_cons; try apply Forall_nil;
      apply round2_two_decimals; auto 12 with finite.
Qed.

Lemma calculateMonthlySummary_two_decimals_witness :
  Forall two_decimals
    (summary_fields
       (calculateMonthlySummary decimalNumber mes_exemplo (config 1000))).
Proof.
  apply (calculateMonthlySummary_two_decimals decimalNumber mes_exemplo
           (config 1000)); reflexivity.
Defined.

Example mes_exemplo_summary :
  let s := calculateMonthlySummary decimalNumber mes_exemplo (config 1000) in
  horasNormaisMes s =n= Num (733 # 100) /\
  horasExtra50Mes s =n= Num (617 # 100) /\
  horasExtra100Mes s =n= Num 0 /\
  dsrTotal s =n= Num (8414 # 100) /\
  valorBruto s =n= Num (112621 # 100) /\
  descontoINSS s =n= Num (8447 # 100) /\
  valorLiquido s =n= Num (104174 # 100).
Proof. repeat apply conj; vm_compute; reflexivity. Qed.

(** ** payroll.ts: the monthly payroll *)

(** C10.  The [bruto] field of [calculateMonthlyPayroll] does not depend on
    the withholding override: two runs on the same summary and salary, with
    any two overrides (present or absent), return the same [bruto]. *)
Theorem calculateMonthlyPayroll_bruto_ignores_override :
  forall (monthSummary : MonthlySummary) (salarioMensal : number)
         (override1 override2 : option number),
    bruto (calculateMonthlyPayroll monthSummary salarioMensal override1)
    = bruto (calculateMonthlyPayroll monthSummary salarioMensal override2).
Proof. intros. reflexivity. Qed.

(** What the override does change: the withholding that is returned is the
    override when there is one, the one of the summary otherwise. *)
Lemma calculateMonthlyPayroll_inss (m : MonthlySummary) (sal : number)
    (override : option number) :
  inss (calculateMonthlyPayroll m sal override)
  = round2 (match override with Some d => d | None => descontoINSS m end).
Proof. reflexivity. Qed.

(** C3 at a month of one worked rest day and a salary of 1000.00: the
    summary's gross is 1068.18 (10 h at 1000/220 * 1.5), and the payroll
    recomputed from that summary is 1068.25 (10 h at 4.55 * 1.5, the hourly
    value rounded to cents by [calculateHourlyValue]). *)
Theorem calculateMonthlyPayroll_bruto_differs_from_summary :
  let settings := config 1000 in
  let summary :=
    calculateMonthlySummary decimalNumber mes_folga_trabalhada settings in
  let payroll :=
    calculateMonthlyPayroll summary (salarioMensal settings) None in
  valorBruto summary =n= Num (106818 # 100) /\
  bruto payroll =n= Num (106825 # 100) /\
  ~ bruto payroll =n= valorBruto summary.
Proof.
  repeat apply conj; vm_compute; try reflexivity. discriminate.
Qed.

Lemma Qround2_comp (p q : Q) : p == q -> Qround2 p == Qround2 q.
Proof.
  intros H. unfold Qround2.
  assert (E : p * 100 + (1 # 2) == q * 100 + (1 # 2)) by (rewrite H; reflexivity).
  rewrite (Qfloor_comp _ _ E). reflexivity.
Qed.

Lemma calculateDSR_rounded (a b c d r u : Q) :
  exists v : Q,
    calculateDSR (Num a) (Num b) (Num c) (Num d) (Num r) (Num u) = Num v /\
    Qround2 v == v.
Proof.
  destruct (Qeq_dec u 0) as [Hu | Hu];
    [|destruct (Qeq_dec r 0) as [Hr | Hr]].
  - exists 0. split; [|reflexivity].
    apply calculateDSR_guard. left. exact Hu.
  - exists 0. split; [|reflexivity].
    apply calculateDSR_guard. right. exact Hr.
  - eexists. split; [apply calculateDSR_Num; assumption|].
    apply Qround2_idem.
Qed.

(** Where the two gross figures do agree: on days of the input domain, when
    the hourly value [salary / 220] has at most two decimals, so that
    [calculateHourlyValue] returns it unchanged. *)
Lemma calculateMonthlyPayroll_bruto_agrees Number days settings (sal : Q) :
  forallb (finite_day Number) days = true ->
  salarioMensal settings = Num sal ->
  Qround2 (sal / 220) == sal / 220 ->
  forall override,
    bruto (calculateMonthlyPayroll
             (calculateMonthlySummary Number days settings) (Num sal) override)
    =n= valorBruto (calculateMonthlySummary Number days settings).
Proof.
  intros Hdays Hsal Hrate override.
  unfold calculateMonthlySummary, calculateMonthlyPayroll. rewrite Hsal.
  change (div (Num 220) (Num 30)) with (Num (220 / 30)).
  change (calculateHourlyValue (Num sal)) with (Num (Qround2 (sal / 220))).
  change (div (Num sal) (Num 220)) with (Num (sal / 220)).
  set (acc := fold_left _ days _).
  assert (Hacc : finite_totals acc = true)
    by (apply fold_accumulate_finite; [exact Hdays | reflexivity]).
  unfold finite_totals in Hacc.
  repeat (apply andb_prop in Hacc; destruct Hacc as [Hacc ?]).
  repeat match goal with
         | H : isFinite _ = true |- _ =>
             apply isFinite_Num in H; destruct H as [? ->]
         end.
  cbv zeta.
  cbn [horasExtra50Mes horasExtra100Mes dsrTotal valorBruto bruto].
  rewrite !round2_Num. cbn [mul lift2].
  match goal with
  | |- context [calculateDSR (Num ?a) (Num ?b) (Num ?c) (Num ?d)
                             (Num ?r) (Num ?u)] =>
      destruct (calculateDSR_rounded a b c d r u) as (v & -> & Hv)
  end.
  rewrite !round2_Num. cbn [add lift2]. rewrite !round2_Num.
  cbn [eqn]. apply Qround2_comp. rewrite Hrate, Hv. reflexivity.
Qed.

Example calculateMonthlyPayroll_bruto_agrees_2200 :
  bruto (calculateMonthlyPayroll
           (calculateMonthlySummary decimalNumber mes_exemplo (config 2200))
           (Num 2200) None)
  =n= valorBruto (calculateMonthlySummary decimalNumber mes_exemplo (config 2200)).
Proof.
  apply (calculateMonthlyPayroll_bruto_agrees decimalNumber mes_exemplo
           (config 2200) 2200); reflexivity.
Qed.

(** The example in the documentation of [calculateMonthlyPayroll] announces
    [{ bruto: 2450.00, inss: 200.00, liquido: 2250.00 }], the gross of the
    summary; the function recomputes 2200 + 150 + 40 + 50. *)
Example calculateMonthlyPayroll_docstring :
  let payroll := calculateMonthlyPayroll summary_of_docstring (Num 2200) None in
  bruto payroll =n= Num 2440 /\
  inss payroll =n= Num 200 /\
  liquido payroll =n= Num 2240.
Proof. repeat apply conj; vm_compute; reflexivity. Qed.

(** The scenarios of the specification that involve the hourly value. *)
Example calculateHourlyValue_2200 :
  calculateHourlyValue (Num 2200) =n= Num 10.
Proof. vm_compute. reflexivity. Qed.

Example calculateOvertimeBreakdown_10_2 :
  let b := calculateOvertimeBreakdown (Num 10) (Num 2) (Num 10) in
  breakdownExtra50 b =n= Num 150 /\
  breakdownExtra100 b =n= Num 40 /\
  totalExtras b =n= Num 190.
Proof. repeat apply conj; vm_compute; reflexivity. Qed.

(** * Further properties of the code *)

(** ** Rounding to two decimals *)

Lemma Qround2_bounds (q : Q) :
  q - (1 # 200) < Qround2 q /\ Qround2 q <= q + (1 # 200).
Proof.
  unfold Qround2.
  pose proof (Qfloor_le (q * 100 + (1 # 2))) as Hlo.
  pose proof (Qlt_floor (q * 100 + (1 # 2))) as Hhi.
  rewrite inject_Z_plus in Hhi. change (inject_Z 1) with 1 in Hhi.
  set (f := inject_Z (Qfloor (q * 100 + (1 # 2)))) in *.
  split.
  - apply Qlt_shift_div_l; lra.
  - apply Qle_shift_div_r; lra.
Qed.

Lemma Qround2_monotone (p q : Q) : p <= q -> Qround2 p <= Qround2 q.
Proof.
  intros H. unfold Qround2.
  apply Qmult_le_compat_r; [|discriminate].
  rewrite <- Zle_Qle. apply Qfloor_resp_le. lra.
Qed.

Lemma Qround2_0 : Qround2 0 == 0.
Proof. reflexivity. Qed.

Lemma Qround2_nonneg (q : Q) : 0 <= q -> 0 <= Qround2 q.
Proof.
  intros H. rewrite <- Qround2_0. apply Qround2_monotone. exact H.
Qed.


(** ** time.ts *)

Lemma split_no_colon (a : string) : no_colon a = true -> split ":" a = [a].
Proof.
  induction a as [|c a IH]; simpl; intros H; [reflexivity|].
  apply andb_prop in H. destruct H as [Hc Ha].
  apply negb_true_iff in Hc. rewrite Hc, (IH Ha). reflexivity.
Qed.

Lemma split_app_colon (a b : string) :
  no_colon a = true ->
  split ":" (a ++ String ":" b) = a :: split ":" b.
Proof.
  induction a as [|c a IH]; simpl; intros H; [reflexivity|].
  apply andb_prop in H. destruct H as [Hc Ha].
  apply negb_true_iff in Hc. rewrite Hc, (IH Ha). reflexivity.
Qed.

(** X1.  What [parseHourToMinutes] reads of a string: without a colon there
    is no minute component and the result is [NaN]; of [hh:mm] it is
    [Number(hh) * 60 + Number(mm)], with no check of the ranges; and whatever
    follows a second colon (seconds) is ignored. *)
Theorem parseHourToMinutes_components :
  forall (Number : string -> number) (hh mm : string),
    no_colon hh = true -> no_colon mm = true ->
    parseHourToMinutes Number hh = NaN /\
    parseHourToMinutes Number (hh ++ ":" ++ mm)
    = add (mul (Number hh) (Num 60)) (Number mm) /\
    (forall rest : string,
        parseHourToMinutes Number (hh ++ ":" ++ mm ++ ":" ++ rest)
        = add (mul (Number hh) (Num 60)) (Number mm)).
Proof.
  intros Number hh mm Hh Hm. unfold parseHourToMinutes.
  change (":" ++ mm)%string with (String ":" mm).
  split; [|split].
  - rewrite (split_no_colon hh Hh). reflexivity.
  - rewrite (split_app_colon hh mm Hh), (split_no_colon mm Hm). reflexivity.
  - intros rest.
    change (":" ++ mm ++ ":" ++ rest)%string
      with (String ":" (mm ++ String ":" rest)).
    rewrite (split_app_colon hh _ Hh), (split_app_colon mm rest Hm).
    simpl. destruct (split ":" rest); reflexivity.
Qed.

Lemma parseHourToMinutes_components_witness :
  parseHourToMinutes decimalNumber "0830" = NaN /\
  parseHourToMinutes decimalNumber "25:99"
  = add (mul (decimalNumber "25") (Num 60)) (decimalNumber "99") /\
  parseHourToMinutes decimalNumber "08:30:59"
  = add (mul (decimalNumber "08") (Num 60)) (decimalNumber "30").
Proof.
  split; [|split].
  - apply (parseHourToMinutes_components decimalNumber "0830" "");
      reflexivity.
  - apply (parseHourToMinutes_components decimalNumber "25" "99");
      reflexivity.
  - apply (parseHourToMinutes_components decimalNumber "08" "30");
      reflexivity.
Defined.



Lemma worked_hours_nonneg Number e s i :
  isFinite (calculateWorkedMinutes Number e s i) = true ->
  exists w : Q,
    minutesToDecimalHours (calculateWorkedMinutes Number e s i) = Num w /\
    0 <= w.
Proof.
  unfold calculateWorkedMinutes. intros H.
  pose proof (Math_max_0_nonneg
                (sub (sub (parseHourToMinutes Number s)
                          (parseHourToMinutes Number e))
                     (mul i (Num 60)))) as Hmax.
  cbv zeta in H.
  destruct (Math_max _ _) as [|m]; [discriminate|].
  exists (Qround2 (m / 60)). split; [reflexivity|].
  apply Qround2_nonneg. apply Qle_shift_div_l; lra.
Qed.

(** ** calculations.ts: the daily classifier *)

(** X3.  A shift over midnight counts nothing: when the clock-out is not
    later than the clock-in (23:00 to 01:00) and the break is not negative,
    [calculateHourDifference] is the negative difference, the worked minutes
    are 0 and, for a standard day that is not negative, so are all three
    buckets of the day, whatever its flags. *)
Theorem shift_over_midnight_counts_nothing :
  forall (Number : string -> number) (entrada saida : string)
         (a b i j : Q) (ehFeriado ehFolga : bool),
    parseHourToMinutes Number entrada = Num a ->
    parseHourToMinutes Number saida = Num b ->
    b <= a -> 0 <= i -> 0 <= j ->
    let r := calculateDailyResult Number entrada saida (Num i)
               ehFeriado ehFolga (Num j) in
    calculateHourDifference Number entrada saida = Num (b - a) /\
    calculateWorkedMinutes Number entrada saida (Num i) =n= Num 0 /\
    horasNormais r =n= Num 0 /\
    horasExtra50 r =n= Num 0 /\
    horasExtra100 r =n= Num 0.
Proof.
  intros Number entrada saida a b i j hol folga Ha Hb Hba Hi Hj r.
  assert (Hw : exists w, calculateWorkedMinutes Number entrada saida (Num i)
                         = Num w /\ w == 0).
  { unfold calculateWorkedMinutes. rewrite Ha, Hb. simpl.
    destruct (Qle_bool_cases 0 (b - a - i * 60)) as [[-> H] | [-> H]].
    - eexists. split; [reflexivity | lra].
    - eexists. split; reflexivity. }
  destruct Hw as (w & Hw & Hw0).
  split; [|split].
  - unfold calculateHourDifference. rewrite Ha, Hb. reflexivity.
  - rewrite Hw. exact Hw0.
  - subst r. unfold calculateDailyResult.
    destruct (not_string entrada || not_string saida);
      [simpl; repeat split; reflexivity|].
    rewrite Hw, minutesToDecimalHours_Num.
    assert (H0 : Qround2 (w / 60) == 0).
    { rewrite <- Qround2_0. apply Qround2_comp. rewrite Hw0. reflexivity. }
    destruct hol; [simpl; repeat split; try reflexivity; exact H0|].
    destruct folga; [simpl; repeat split; try reflexivity; exact H0|].
    cbn [le].
    destruct (Qle_bool_cases (Qround2 (w / 60)) j) as [[-> H] | [-> H]].
    + simpl. repeat split; try reflexivity; exact H0.
    + lra.
Qed.

Lemma shift_over_midnight_counts_nothing_witness :
  let r := calculateDailyResult decimalNumber "23:00" "01:00" (Num 0)
             false false (Num (220 / 30)) in
  calculateHourDifference decimalNumber "23:00" "01:00" = Num (60 - 1380) /\
  calculateWorkedMinutes decimalNumber "23:00" "01:00" (Num 0) =n= Num 0 /\
  horasNormais r =n= Num 0 /\
  horasExtra50 r =n= Num 0 /\
  horasExtra100 r =n= Num 0.
Proof.
  apply (shift_over_midnight_counts_nothing decimalNumber "23:00" "01:00"
           1380 60 0 (220 / 30) false false);
    try reflexivity; discriminate.
Defined.

Lemma finite_day_worked Number d :
  finite_day Number d = true ->
  no_shift d = true \/
  isFinite (calculateWorkedMinutes Number (entrada d) (saida d)
              (intervaloHoras d)) = true.
Proof.
  unfold finite_day, no_shift.
  destruct (not_string (entrada d) || not_string (saida d)); simpl;
    [left; reflexivity|].
  intros H. right.
  apply andb_prop in H. destruct H as [H Hi].
  apply andb_prop in H. destruct H as [He Hs].
  apply calculateWorkedMinutes_finite; assumption.
Qed.

Lemma dailyResultOf_nonneg Number d (j : Q) :
  0 <= j -> finite_day Number d = true ->
  let r := dailyResultOf Number (Num j) d in
  nonneg (horasNormais r) /\ at_most j (horasNormais r) /\
  nonneg (horasExtra50 r) /\ nonneg (horasExtra100 r).
Proof.
  intros Hj Hd. unfold dailyResultOf, calculateDailyResult.
  destruct (finite_day_worked Number d Hd) as [H | H].
  - unfold no_shift in H. rewrite H. simpl. repeat split; lra.
  - destruct (not_string (entrada d) || not_string (saida d));
      [simpl; repeat split; lra|].
    destruct (worked_hours_nonneg _ _ _ _ H) as (w & -> & Hw).
    destruct (ehFeriado d); [simpl; repeat split; lra|].
    destruct (ehFolga d); [simpl; repeat split; lra|].
    cbn [le].
    destruct (Qle_bool_cases w j) as [[-> Hwj] | [-> Hwj]];
      simpl; repeat split; lra.
Qed.

(** X4.  No bucket of a day is negative, and the normal hours never exceed
    the standard day: for a standard day of [j >= 0] hours and a day record
    of the input domain, the three results of [calculateDailyResult] are
    numbers that are at least 0, and the normal hours are at most [j]. *)
Theorem calculateDailyResult_buckets_in_range :
  forall (Number : string -> number) (d : DayRecord) (j : Q),
    0 <= j -> finite_day Number d = true ->
    let r := calculateDailyResult Number (entrada d) (saida d)
               (intervaloHoras d) (ehFeriado d) (ehFolga d) (Num j) in
    nonneg (horasNormais r) /\ at_most j (horasNormais r) /\
    nonneg (horasExtra50 r) /\ nonneg (horasExtra100 r).
Proof. exact dailyResultOf_nonneg. Qed.

Lemma calculateDailyResult_buckets_in_range_witness :
  let d := dia "08:00" "18:30" 1 false false in
  let r := calculateDailyResult decimalNumber (entrada d) (saida d)
             (intervaloHoras d) (ehFeriado d) (ehFolga d) (Num (220 / 30)) in
  nonneg (horasNormais r) /\ at_most (220 / 30) (horasNormais r) /\
  nonneg (horasExtra50 r) /\ nonneg (horasExtra100 r).
Proof.
  apply (calculateDailyResult_buckets_in_range decimalNumber
           (dia "08:00" "18:30" 1 false false) (220 / 30));
    [discriminate | reflexivity].
Defined.

(** ** calculations.ts: the withholding, beyond the bracket table *)

Lemma INSS_Q_marginal (g1 g2 : Q) :
  g1 <= g2 -> INSS_Q g2 - INSS_Q g1 <= (14 # 100) * (g2 - g1).
Proof.
  intros H. unfold INSS_Q.
  bracket_cases g1; bracket_cases g2; table_values; lra.
Qed.

Lemma INSS_Q_effective_rate (g : Q) :
  0 <= g -> g <= faixa4 ->
  (75 # 1000) * g <= INSS_Q g /\ INSS_Q g <= (14 # 100) * g.
Proof.
  intros H0 H4. unfold INSS_Q.
  bracket_cases g; table_values; lra.
Qed.

Lemma teto_INSS_value : teto_INSS == 9088618 # 10000.
Proof. vm_compute. reflexivity. Qed.

Lemma INSS_Q_ceiling (g : Q) : INSS_Q g <= teto_INSS.
Proof.
  rewrite teto_INSS_value. unfold INSS_Q.
  bracket_cases g; table_values; lra.
Qed.

Lemma INSS_Q_nonneg (g : Q) :
  0 <= g -> 0 <= INSS_Q g /\ INSS_Q g <= (14 # 100) * g.
Proof.
  intros H. unfold INSS_Q.
  bracket_cases g; table_values; lra.
Qed.

(** X5.  The withholding never eats a raise: for [g1 <= g2] the net
    [g - calculateINSS g] of [g2] is at least that of [g1]; on a gross that
    is not negative the withholding is not negative and at most 14% of the
    gross; and rounded to cents, as the summary reports it, it never exceeds
    the ceiling 908.86. *)
Theorem calculateINSS_net_never_falls :
  (forall g1 g2 : Q,
      g1 <= g2 ->
      exists w1 w2 : Q,
        calculateINSS (Num g1) = Num w1 /\ calculateINSS (Num g2) = Num w2 /\
        g1 - w1 <= g2 - w2) /\
  (forall g : Q,
      0 <= g ->
      exists w : Q,
        calculateINSS (Num g) = Num w /\ 0 <= w /\ w <= (14 # 100) * g) /\
  (forall g : Q, at_most (90886 # 100) (round2 (calculateINSS (Num g)))).
Proof.
  split; [|split].
  - intros g1 g2 H. exists (INSS_Q g1), (INSS_Q g2).
    rewrite !calculateINSS_Num.
    pose proof (INSS_Q_marginal g1 g2 H).
    repeat split; lra.
  - intros g H0. exists (INSS_Q g). rewrite calculateINSS_Num.
    split; [reflexivity | apply INSS_Q_nonneg; exact H0].
  - intros g. rewrite calculateINSS_Num, round2_Num. cbn [at_most].
    assert (E : Qround2 (9088618 # 10000) == 90886 # 100) by reflexivity.
    rewrite <- E. apply Qround2_monotone.
    rewrite <- teto_INSS_value. apply INSS_Q_ceiling.
Qed.

Lemma calculateINSS_net_never_falls_witness :
  (exists w1 w2 : Q,
      calculateINSS (Num 2666) = Num w1 /\ calculateINSS (Num 2667) = Num w2 /\
      2666 - w1 <= 2667 - w2) /\
  (exists w : Q,
      calculateINSS (Num 3000) = Num w /\ 0 <= w /\ w <= (14 # 100) * 3000).
Proof.
  destruct calculateINSS_net_never_falls as (Hnet & Hrate & _).
  split.
  - apply Hnet. discriminate.
  - apply Hrate. discriminate.
Defined.

(** The ceiling in doubles, above the top bound and at it. *)
Example calculateINSS_ceiling_in_doubles :
  Binary64.calculateINSS 1e9 = 908.8618000000001%float /\
  Binary64.calculateINSS 7786.02 = 908.8618000000001%float /\
  Binary64.round2 (Binary64.calculateINSS 1e9) = 908.86%float.
Proof. repeat apply conj; vm_compute; reflexivity. Qed.

(** X6.  Inputs that the withholding does not guard: a [NaN] gross fails
    every comparison of the chain and gets what a gross at the top bound
    7786.02 gets, the ceiling, 908.86 once rounded to cents; a negative gross
    falls in the first bracket and gets a negative withholding of 7.5% of
    it. *)
Theorem calculateINSS_unguarded_inputs :
  calculateINSS NaN = calculateINSS (Num faixa4) /\
  round2 (calculateINSS NaN) =n= Num (90886 # 100) /\
  (forall g : Q,
      g < 0 ->
      exists w : Q,
        calculateINSS (Num g) = Num w /\
        Num w = mul (Num g) (Num aliquota1) /\ w < 0).
Proof.
  split; [reflexivity|]. split; [vm_compute; reflexivity|].
  intros g H. exists (g * aliquota1).
  assert (E : Qle_bool g faixa1 = true)
    by (apply Qle_bool_iff; unfold faixa1; lra).
  unfold calculateINSS. cbn [le]. rewrite E.
  repeat split. unfold aliquota1. lra.
Qed.

Lemma calculateINSS_unguarded_inputs_witness :
  exists w : Q,
    calculateINSS (Num (-100)) = Num w /\
    Num w = mul (Num (-100)) (Num aliquota1) /\ w < 0.
Proof.
  destruct calculateINSS_unguarded_inputs as (_ & _ & H).
  apply H. reflexivity.
Defined.

(** The same in doubles. *)
Example calculateINSS_unguarded_inputs_in_doubles :
  Binary64.calculateINSS nan = Binary64.calculateINSS 7786.02 /\
  Binary64.calculateINSS nan = 908.8618000000001%float /\
  Binary64.round2 (Binary64.calculateINSS nan) = 908.86%float /\
  Binary64.calculateINSS (-100) = (-7.5)%float.
Proof. repeat apply conj; vm_compute; reflexivity. Qed.

(** ** calculations.ts: the monthly aggregation, beyond rounding *)

(** The counters of the loop: rest days are the days flagged as weekly rest
    or holiday, all other days count as working days, with or without a
    shift. *)
Lemma fold_accumulate_counts Number j days :
  forall acc (r u : Q),
    diasRepouso acc = Num r -> diasUteis acc = Num u ->
    exists r' u' : Q,
      diasRepouso (fold_left (accumulate Number j) days acc) = Num r' /\
      diasUteis (fold_left (accumulate Number j) days acc) = Num u' /\
      r' == r + inject_Z (Z.of_nat (List.length (filter rest_day days))) /\
      u' == u + inject_Z (Z.of_nat
                            (List.length
                               (filter (fun d => negb (rest_day d)) days))).
Proof.
  induction days as [|d days IH]; intros acc r u Hr Hu.
  - exists r, u. simpl. unfold inject_Z. repeat split; try assumption; lra.
  - cbn [fold_left filter].
    destruct (rest_day d) eqn:E; cbn [negb].
    + destruct (IH (accumulate Number j acc d) (r + 1) u)
        as (r' & u' & H1 & H2 & H3 & H4).
      * unfold accumulate; cbn [diasRepouso]. fold (rest_day d).
        rewrite E, Hr. reflexivity.
      * unfold accumulate; cbn [diasUteis]. fold (rest_day d).
        rewrite E. exact Hu.
      * exists r', u'. repeat split; try assumption.
        cbn [List.length]. rewrite Nat2Z.inj_succ, <- Z.add_1_r, inject_Z_plus.
        change (inject_Z 1) with 1. lra.
    + destruct (IH (accumulate Number j acc d) r (u + 1))
        as (r' & u' & H1 & H2 & H3 & H4).
      * unfold accumulate; cbn [diasRepouso]. fold (rest_day d).
        rewrite E. exact Hr.
      * unfold accumulate; cbn [diasUteis]. fold (rest_day d).
        rewrite E, Hu. reflexivity.
      * exists r', u'. repeat split; try assumption.
        cbn [List.length]. rewrite Nat2Z.inj_succ, <- Z.add_1_r, inject_Z_plus.
        change (inject_Z 1) with 1. lra.
Qed.

Lemma filter_none {A : Type} (f : A -> bool) (l : list A) :
  forallb (fun x => negb (f x)) l = true -> filter f l = [].
Proof.
  induction l as [|x l IH]; simpl; intros H; [reflexivity|].
  apply andb_prop in H. destruct H as [Hx Hl].
  apply negb_true_iff in Hx. rewrite Hx. apply IH, Hl.
Qed.

Lemma forallb_negb_negb {A : Type} (f : A -> bool) (l : list A) :
  forallb f l = true -> forallb (fun x => negb (negb (f x))) l = true.
Proof.
  induction l as [|x l IH]; simpl; intros H; [reflexivity|].
  apply andb_prop in H. destruct H as [Hx Hl].
  rewrite Hx, (IH Hl). reflexivity.
Qed.

(** X7.  The DSR of a month needs both kinds of days: when no day of the
    month is flagged as weekly rest or holiday, or when every day is, the
    [dsrTotal] of the summary is 0, whatever overtime the month has and
    whatever the clock strings and the salary are. *)
Theorem calculateMonthlySummary_dsr_needs_rest_and_work :
  forall (Number : string -> number) (days : list DayRecord)
         (settings : Settings),
    forallb (fun d => negb (rest_day d)) days = true \/
    forallb rest_day days = true ->
    dsrTotal (calculateMonthlySummary Number days settings) =n= Num 0.
Proof.
  intros Number days settings H.
  unfold calculateMonthlySummary. cbv zeta. cbn [dsrTotal].
  fold totals0.
  destruct (fold_accumulate_counts Number (div (Num 220) (Num 30)) days
              totals0 0 0 eq_refl eq_refl)
    as (r & u & Hr & Hu & Hr' & Hu').
  rewrite calculateDSR_guard; [reflexivity|].
  rewrite Hr, Hu. cbn [eqn].
  destruct H as [H | H].
  - right. rewrite Hr', (filter_none _ _ H). reflexivity.
  - left. rewrite Hu', (filter_none _ _ (forallb_negb_negb _ _ H)).
    reflexivity.
Qed.

Lemma calculateMonthlySummary_dsr_needs_rest_and_work_witness :
  dsrTotal (calculateMonthlySummary decimalNumber mes_sem_repouso (config 1000))
  =n= Num 0.
Proof.
  apply (calculateMonthlySummary_dsr_needs_rest_and_work decimalNumber
           mes_sem_repouso (config 1000)).
  left. reflexivity.
Defined.

Lemma INSS_Q_comp (p q : Q) : p == q -> INSS_Q p == INSS_Q q.
Proof.
  intros H. apply Qle_antisym; apply INSS_Q_monotone; rewrite H; apply Qle_refl.
Qed.

Lemma fold_accumulate_no_shift Number j days :
  forallb no_shift days = true ->
  forall acc (a b c : Q),
    horasNormaisTotal acc = Num a -> horasExtra50Total acc = Num b ->
    horasExtra100Total acc = Num c ->
    exists a' b' c' : Q,
      horasNormaisTotal (fold_left (accumulate Number j) days acc) = Num a' /\
      horasExtra50Total (fold_left (accumulate Number j) days acc) = Num b' /\
      horasExtra100Total (fold_left (accumulate Number j) days acc) = Num c' /\
      a' == a /\ b' == b /\ c' == c.
Proof.
  induction days as [|d days IH]; intros Hdays acc a b c Ha Hb Hc.
  - exists a, b, c. simpl. repeat split; try assumption; reflexivity.
  - cbn [forallb] in Hdays. apply andb_prop in Hdays.
    destruct Hdays as [Hd Hdays]. cbn [fold_left].
    assert (Hz : calculateDailyResult Number (entrada d) (saida d)
                   (intervaloHoras d) (ehFeriado d) (ehFolga d) j
                 = zeroHours).
    { unfold calculateDailyResult. unfold no_shift in Hd. rewrite Hd.
      reflexivity. }
    destruct (IH Hdays (accumulate Number j acc d) (a + 0) (b + 0) (c + 0))
      as (a' & b' & c' & H1 & H2 & H3 & H4 & H5 & H6).
    + unfold accumulate. rewrite Hz, Ha. reflexivity.
    + unfold accumulate. rewrite Hz, Hb. reflexivity.
    + unfold accumulate. rewrite Hz, Hc. reflexivity.
    + exists a', b', c'. repeat split; try assumption; lra.
Qed.

Lemma calculateDSR_zero_hours (a b c d r u : Q) :
  a == 0 -> b == 0 ->
  exists v : Q,
    calculateDSR (Num a) (Num b) (Num c) (Num d) (Num r) (Num u) = Num v /\
    v == 0.
Proof.
  intros Ha Hb.
  destruct (Qeq_dec u 0) as [Hu | Hu];
    [|destruct (Qeq_dec r 0) as [Hr | Hr]].
  - exists 0. split; [|reflexivity].
    apply calculateDSR_guard. left. exact Hu.
  - exists 0. split; [|reflexivity].
    apply calculateDSR_guard. right. exact Hr.
  - eexists. split; [apply calculateDSR_Num; assumption|].
    rewrite <- Qround2_0. apply Qround2_comp.
    rewrite Ha, Hb. field. exact Hu.
Qed.

(** X8.  A month in which no day has both clock times pays the base salary
    and nothing else: the three hour totals and the DSR of the summary are 0,
    the gross is the salary rounded to cents, and the withholding and the net
    are those of the salary.  The empty list of days is such a month. *)
Theorem calculateMonthlySummary_without_shifts :
  forall (Number : string -> number) (days : list DayRecord)
         (settings : Settings) (sal : Q),
    salarioMensal settings = Num sal ->
    forallb no_shift days = true ->
    let s := calculateMonthlySummary Number days settings in
    horasNormaisMes s =n= Num 0 /\
    horasExtra50Mes s =n= Num 0 /\
    horasExtra100Mes s =n= Num 0 /\
    dsrTotal s =n= Num 0 /\
    valorBruto s =n= round2 (Num sal) /\
    descontoINSS s =n= round2 (calculateINSS (Num sal)) /\
    valorLiquido s =n= round2 (sub (Num sal) (calculateINSS (Num sal))).
Proof.
  intros Number days settings sal Hsal Hdays s. subst s.
  unfold calculateMonthlySummary. rewrite Hsal. fold totals0.
  change (div (Num sal) (Num 220)) with (Num (sal / 220)).
  set (j := div (Num 220) (Num 30)).
  destruct (fold_accumulate_no_shift Number j days Hdays totals0 0 0 0
              eq_refl eq_refl eq_refl)
    as (a & b & c & Ha & Hb & Hc & Ha0 & Hb0 & Hc0).
  destruct (fold_accumulate_counts Number j days totals0 0 0 eq_refl eq_refl)
    as (r & u & Hr & Hu & _ & _).
  cbv zeta.
  cbn [horasNormaisMes horasExtra50Mes horasExtra100Mes dsrTotal valorBruto
       descontoINSS valorLiquido].
  rewrite Ha, Hb, Hc, Hr, Hu, !round2_Num. cbn [mul lift2].
  assert (Ea : Qround2 a == 0)
    by (rewrite <- Qround2_0; apply Qround2_comp; exact Ha0).
  assert (Eb : Qround2 b == 0)
    by (rewrite <- Qround2_0; apply Qround2_comp; exact Hb0).
  assert (Ec : Qround2 c == 0)
    by (rewrite <- Qround2_0; apply Qround2_comp; exact Hc0).
  destruct (calculateDSR_zero_hours (Qround2 b) (Qround2 c)
              (sal / 220 * (15 # 10)) (sal / 220 * 2) r u Eb Ec)
    as (v & -> & Hv).
  cbn [add lift2]. rewrite !calculateINSS_Num, !round2_Num.
  cbn [sub lift2]. rewrite !round2_Num. cbn [eqn].
  assert (Eg : sal + Qround2 b * (sal / 220 * (15 # 10))
               + Qround2 c * (sal / 220 * 2) + v == sal)
    by (rewrite Eb, Ec, Hv; ring).
  repeat apply conj; try assumption.
  - rewrite <- Qround2_0. apply Qround2_comp. exact Hv.
  - apply Qround2_comp. exact Eg.
  - apply Qround2_comp, INSS_Q_comp. exact Eg.
  - apply Qround2_comp. rewrite (INSS_Q_comp _ _ Eg), Eg. reflexivity.
Qed.

Lemma calculateMonthlySummary_without_shifts_witness :
  let s := calculateMonthlySummary decimalNumber mes_sem_registro
             (config 1000) in
  horasNormaisMes s =n= Num 0 /\
  horasExtra50Mes s =n= Num 0 /\
  horasExtra100Mes s =n= Num 0 /\
  dsrTotal s =n= Num 0 /\
  valorBruto s =n= round2 (Num 1000) /\
  descontoINSS s =n= round2 (calculateINSS (Num 1000)) /\
  valorLiquido s =n= round2 (sub (Num 1000) (calculateINSS (Num 1000))).
Proof.
  apply (calculateMonthlySummary_without_shifts decimalNumber
           mes_sem_registro (config 1000) 1000); reflexivity.
Defined.

Lemma nonneg_Num (x : number) : nonneg x -> exists q, x = Num q /\ 0 <= q.
Proof.
  destruct x as [|q]; simpl; [contradiction|]. intros H. exists q. auto.
Qed.

Lemma nonneg_add (x y : number) : nonneg x -> nonneg y -> nonneg (add x y).
Proof. destruct x, y; simpl; try contradiction. intros; lra. Qed.

Lemma accumulate_nonneg Number (j : Q) acc d :
  0 <= j -> finite_day Number d = true ->
  nonneg_totals acc -> nonneg_totals (accumulate Number (Num j) acc d).
Proof.
  intros Hj Hd (H1 & H2 & H3 & H4 & H5).
  destruct (dailyResultOf_nonneg Number d j Hj Hd) as (Hn & _ & H50 & H100).
  unfold dailyResultOf in *.
  unfold nonneg_totals, accumulate;
    cbn [horasNormaisTotal horasExtra50Total horasExtra100Total
         diasRepouso diasUteis].
  repeat split; try (apply nonneg_add; assumption);
    destruct (ehFolga d || ehFeriado d); try assumption;
    apply nonneg_add; simpl; try assumption; lra.
Qed.

Lemma fold_accumulate_nonneg Number (j : Q) days :
  0 <= j -> forallb (finite_day Number) days = true ->
  forall acc, nonneg_totals acc ->
  nonneg_totals (fold_left (accumulate Number (Num j)) days acc).
Proof.
  intros Hj. induction days as [|d days IH]; simpl; intros Hdays acc Hacc.
  - exact Hacc.
  - apply andb_prop in Hdays. destruct Hdays as [Hd Hdays].
    apply IH; [exact Hdays|]. apply accumulate_nonneg; assumption.
Qed.

Lemma calculateDSR_nonneg (a b c d r u : Q) :
  0 <= a -> 0 <= b -> 0 <= c -> 0 <= d -> 0 <= r -> 0 <= u ->
  exists v : Q,
    calculateDSR (Num a) (Num b) (Num c) (Num d) (Num r) (Num u) = Num v /\
    0 <= v.
Proof.
  intros Ha Hb Hc Hd Hr Hu.
  destruct (Qeq_dec u 0) as [Eu | Eu];
    [|destruct (Qeq_dec r 0) as [Er | Er]].
  - exists 0. split; [|lra]. apply calculateDSR_guard. left. exact Eu.
  - exists 0. split; [|lra]. apply calculateDSR_guard. right. exact Er.
  - eexists. split; [apply calculateDSR_Num; assumption|].
    apply Qround2_nonneg. apply Qmult_le_0_compat.
    + pose proof (Qmult_le_0_compat _ _ Ha Hc).
      pose proof (Qmult_le_0_compat _ _ Hb Hd). lra.
    + apply Qle_shift_div_l; lra.
Qed.

(** X9.  Recorded work never lowers the pay: on day records of the input
    domain and a salary that is not negative, the gross of the summary is at
    least the salary rounded to cents, the DSR and the withholding are not
    negative, the withholding is at most 908.86, and the net lies between 0
    and the gross. *)
Theorem calculateMonthlySummary_pay_bounds :
  forall (Number : string -> number) (days : list DayRecord)
         (settings : Settings) (sal : Q),
    salarioMensal settings = Num sal -> 0 <= sal ->
    forallb (finite_day Number) days = true ->
    let s := calculateMonthlySummary Number days settings in
    exists dsr gross inss net : Q,
      dsrTotal s = Num dsr /\ valorBruto s = Num gross /\
      descontoINSS s = Num inss /\ valorLiquido s = Num net /\
      0 <= dsr /\ Qround2 sal <= gross /\
      0 <= inss /\ inss <= 90886 # 100 /\
      0 <= net /\ net <= gross.
Proof.
  intros Number days settings sal Hsal Hsal0 Hdays s. subst s.
  unfold calculateMonthlySummary. rewrite Hsal. fold totals0.
  change (div (Num sal) (Num 220)) with (Num (sal / 220)).
  change (div (Num 220) (Num 30)) with (Num (220 / 30)).
  destruct (fold_accumulate_nonneg Number (220 / 30) days
              ltac:(discriminate) Hdays totals0)
    as (_ & H50 & H100 & Hr & Hu).
  { unfold nonneg_totals, totals0. simpl. repeat split; lra. }
  apply nonneg_Num in H50, H100, Hr, Hu.
  destruct H50 as (b & Hb & Hb0), H100 as (c & Hc & Hc0),
           Hr as (r & Hr & Hr0), Hu as (u & Hu & Hu0).
  cbv zeta.
  cbn [dsrTotal valorBruto descontoINSS valorLiquido].
  rewrite Hb, Hc, Hr, Hu, !round2_Num. cbn [mul lift2].
  pose proof (Qround2_nonneg b Hb0) as Hrb.
  pose proof (Qround2_nonneg c Hc0) as Hrc.
  assert (Hrate : 0 <= sal / 220) by (apply Qle_shift_div_l; lra).
  assert (H15 : 0 <= sal / 220 * (15 # 10)) by lra.
  assert (H2 : 0 <= sal / 220 * 2) by lra.
  destruct (calculateDSR_nonneg (Qround2 b) (Qround2 c)
              (sal / 220 * (15 # 10)) (sal / 220 * 2) r u
              Hrb Hrc H15 H2 Hr0 Hu0) as (v & -> & Hv).
  cbn [add lift2]. rewrite !calculateINSS_Num, !round2_Num.
  cbn [sub lift2]. rewrite !round2_Num.
  set (B := sal + Qround2 b * (sal / 220 * (15 # 10))
            + Qround2 c * (sal / 220 * 2) + v).
  assert (HB : sal <= B).
  { pose proof (Qmult_le_0_compat _ _ Hrb H15).
    pose proof (Qmult_le_0_compat _ _ Hrc H2). unfold B. lra. }
  destruct (INSS_Q_nonneg B ltac:(lra)) as [HI0 HI14].
  pose proof (INSS_Q_ceiling B) as HIc. rewrite teto_INSS_value in HIc.
  do 4 eexists. repeat apply conj; try reflexivity.
  - apply Qround2_nonneg, Hv.
  - apply Qround2_monotone, HB.
  - apply Qround2_nonneg, HI0.
  - assert (E : Qround2 (9088618 # 10000) == 90886 # 100) by reflexivity.
    rewrite <- E. apply Qround2_monotone, HIc.
  - apply Qround2_nonneg. lra.
  - apply Qround2_monotone. lra.
Qed.

Lemma calculateMonthlySummary_pay_bounds_witness :
  let s := calculateMonthlySummary decimalNumber mes_exemplo (config 1000) in
  exists dsr gross inss net : Q,
    dsrTotal s = Num dsr /\ valorBruto s = Num gross /\
    descontoINSS s = Num inss /\ valorLiquido s = Num net /\
    0 <= dsr /\ Qround2 1000 <= gross /\
    0 <= inss /\ inss <= 90886 # 100 /\
    0 <= net /\ net <= gross.
Proof.
  apply (calculateMonthlySummary_pay_bounds decimalNumber mes_exemplo
           (config 1000) 1000); [reflexivity | discriminate | reflexivity].
Defined.

(** X10.  The withholding of a summary is always a number.  When the gross
    is [NaN] (a clock string that does not convert reached the totals), the
    summary still reports a withholding, the ceiling 908.86, beside a [NaN]
    net. *)
Theorem calculateMonthlySummary_withholding_of_NaN_gross :
  forall (Number : string -> number) (days : list DayRecord)
         (settings : Settings),
    let s := calculateMonthlySummary Number days settings in
    isFinite (descontoINSS s) = true /\
    (valorBruto s = NaN ->
     descontoINSS s =n= Num (90886 # 100) /\ valorLiquido s = NaN).
Proof.
  intros Number days settings s. subst s.
  unfold calculateMonthlySummary. cbv zeta.
  cbn [valorBruto descontoINSS valorLiquido].
  match goal with
  | |- context [calculateINSS ?g] => generalize g
  end.
  intros B. split.
  - apply isFinite_round2, isFinite_calculateINSS.
  - destruct B as [|q]; [|discriminate].
    intros _. split; [vm_compute|]; reflexivity.
Qed.

Lemma calculateMonthlySummary_withholding_of_NaN_gross_witness :
  let s := calculateMonthlySummary decimalNumber mes_hora_invalida
             (config 1000) in
  descontoINSS s =n= Num (90886 # 100) /\ valorLiquido s = NaN.
Proof.
  apply (calculateMonthlySummary_withholding_of_NaN_gross decimalNumber
           mes_hora_invalida (config 1000)).
  reflexivity.
Defined.

Lemma within_cent_of_integer (z : Z) :
  - (3 # 200) < inject_Z z / 100 -> inject_Z z / 100 < 3 # 200 ->
  - (1 # 100) <= inject_Z z / 100 /\ inject_Z z / 100 <= 1 # 100.
Proof.
  assert (E : inject_Z z == 100 * (inject_Z z / 100)) by field.
  set (q := inject_Z z / 100) in *. intros Hlo Hhi.
  assert (H1 : (-2 < z)%Z).
  { rewrite Zlt_Qlt. change (inject_Z (-2)) with (-2). lra. }
  assert (H2 : (z < 2)%Z).
  { rewrite Zlt_Qlt. change (inject_Z 2) with 2. lra. }
  assert (H3 : (-1 <= z)%Z) by lia.
  assert (H4 : (z <= 1)%Z) by lia.
  rewrite Zle_Qle in H3, H4.
  change (inject_Z (-1)) with (-1) in H3. change (inject_Z 1) with 1 in H4.
  lra.
Qed.

Lemma Qround2_sub_within_cent (x y : Q) :
  - (1 # 100) <= Qround2 (x - y) - (Qround2 x - Qround2 y) /\
  Qround2 (x - y) - (Qround2 x - Qround2 y) <= 1 # 100.
Proof.
  destruct (Qround2_bounds x) as [Hx Hx'].
  destruct (Qround2_bounds y) as [Hy Hy'].
  destruct (Qround2_bounds (x - y)) as [Hd Hd'].
  assert (E : Qround2 (x - y) - (Qround2 x - Qround2 y)
              == inject_Z (Qfloor ((x - y) * 100 + (1 # 2))
                           - Qfloor (x * 100 + (1 # 2))
                           + Qfloor (y * 100 + (1 # 2))) / 100).
  { unfold Qround2. unfold Z.sub.
    rewrite !inject_Z_plus, !inject_Z_opp. field. }
  rewrite E. apply within_cent_of_integer; rewrite <- E; lra.
Qed.

Lemma Qround2_add_within_cent (x y : Q) :
  - (1 # 100) <= Qround2 (x + y) - (Qround2 x + Qround2 y) /\
  Qround2 (x + y) - (Qround2 x + Qround2 y) <= 1 # 100.
Proof.
  destruct (Qround2_bounds x) as [Hx Hx'].
  destruct (Qround2_bounds y) as [Hy Hy'].
  destruct (Qround2_bounds (x + y)) as [Hd Hd'].
  assert (E : Qround2 (x + y) - (Qround2 x + Qround2 y)
              == inject_Z (Qfloor ((x + y) * 100 + (1 # 2))
                           - Qfloor (x * 100 + (1 # 2))
                           - Qfloor (y * 100 + (1 # 2))) / 100).
  { unfold Qround2. unfold Z.sub.
    rewrite !inject_Z_plus, !inject_Z_opp. field. }
  rewrite E. apply within_cent_of_integer; rewrite <- E; lra.
Qed.

(** X11.  The three money fields of a summary are rounded one by one, so
    they need not add up: whenever the gross is a number, the net of the
    summary is within one cent of the gross less the withholding, which is
    the net that the Summary component displays ([monthlySummary.valorBruto -
    inssValue], without an override). *)
Theorem calculateMonthlySummary_net_within_a_cent :
  forall (Number : string -> number) (days : list DayRecord)
         (settings : Settings) (gross : Q),
    let s := calculateMonthlySummary Number days settings in
    valorBruto s = Num gross ->
    exists inss net : Q,
      descontoINSS s = Num inss /\ valorLiquido s = Num net /\
      Summary_valorLiquidoFinal s None = Num (gross - inss) /\
      - (1 # 100) <= net - (gross - inss) /\
      net - (gross - inss) <= 1 # 100.
Proof.
  intros Number days settings gross s. subst s.
  unfold Summary_valorLiquidoFinal, Summary_inssValue, calculateMonthlySummary.
  cbv zeta. cbn [valorBruto descontoINSS valorLiquido].
  match goal with
  | |- context [calculateINSS ?g] => generalize g
  end.
  intros B HB. destruct B as [|b]; [discriminate|].
  rewrite round2_Num in HB. injection HB as <-.
  rewrite calculateINSS_Num. cbn [sub lift2]. rewrite !round2_Num.
  exists (Qround2 (INSS_Q b)), (Qround2 (b - INSS_Q b)).
  repeat apply conj; try reflexivity;
    apply Qround2_sub_within_cent.
Qed.

Lemma calculateMonthlySummary_net_within_a_cent_witness :
  let s := calculateMonthlySummary decimalNumber [] (config (100020 # 100)) in
  exists gross inss net : Q,
    valorBruto s = Num gross /\
    descontoINSS s = Num inss /\ valorLiquido s = Num net /\
    Summary_valorLiquidoFinal s None = Num (gross - inss) /\
    - (1 # 100) <= net - (gross - inss) /\
    net - (gross - inss) <= 1 # 100.
Proof.
  intros s. eexists.
  destruct (calculateMonthlySummary_net_within_a_cent decimalNumber []
              (config (100020 # 100)) _ eq_refl) as (inss & net & H).
  exists inss, net. split; [reflexivity | exact H].
Defined.

(** The bound is reached: at a salary of 1000.20 and no days the summary
    shows gross 1000.20, withholding 75.02 and net 925.19. *)
Example net_one_cent_off :
  let s := calculateMonthlySummary decimalNumber [] (config (100020 # 100)) in
  valorBruto s =n= Num (100020 # 100) /\
  descontoINSS s =n= Num (7502 # 100) /\
  valorLiquido s =n= Num (92519 # 100) /\
  Summary_valorLiquidoFinal s None =n= Num (92518 # 100).
Proof. repeat apply conj; vm_compute; reflexivity. Qed.

(** ** payroll.ts *)

Lemma round2_finite_inv (x : number) (q : Q) :
  round2 x = Num q -> exists p, x = Num p /\ q = Qround2 p.
Proof.
  destruct x as [|p]; [discriminate|]. rewrite round2_Num.
  intros H. injection H as <-. exists p. auto.
Qed.

(** X12.  [calculateMonthlyPayroll] reproduces the withholding of a
    summary of [calculateMonthlySummary] when no override is given, for
    every month and salary; and whenever the gross and the withholding it
    returns are numbers, the net it returns is a number within one cent of
    their difference, with or without an override. *)
Theorem calculateMonthlyPayroll_fields_consistent :
  (forall (Number : string -> number) (days : list DayRecord)
          (settings : Settings) (sal : number),
      let m := calculateMonthlySummary Number days settings in
      inss (calculateMonthlyPayroll m sal None) =n= descontoINSS m) /\
  (forall (m : MonthlySummary) (sal : number) (override : option number)
          (b i : Q),
      bruto (calculateMonthlyPayroll m sal override) = Num b ->
      inss (calculateMonthlyPayroll m sal override) = Num i ->
      exists l : Q,
        liquido (calculateMonthlyPayroll m sal override) = Num l /\
        - (1 # 100) <= l - (b - i) /\ l - (b - i) <= 1 # 100).
Proof.
  split.
  - intros Number days settings sal m. subst m.
    unfold calculateMonthlyPayroll, calculateMonthlySummary. cbv zeta.
    cbn [inss descontoINSS].
    match goal with
    | |- context [calculateINSS ?g] =>
        destruct (isFinite_Num _ (isFinite_calculateINSS g)) as [w ->]
    end.
    rewrite !round2_Num. apply Qround2_idem.
  - intros m sal override.
    unfold calculateMonthlyPayroll. cbv zeta. cbn [bruto inss liquido].
    intros b i Hb Hi.
    apply round2_finite_inv in Hb, Hi.
    destruct Hb as (x & -> & ->), Hi as (y & -> & ->).
    cbn [sub lift2]. rewrite round2_Num.
    exists (Qround2 (x - y)).
    split; [reflexivity | apply Qround2_sub_within_cent].
Qed.

Lemma calculateMonthlyPayroll_fields_consistent_witness :
  let m := calculateMonthlySummary decimalNumber mes_exemplo (config 1000) in
  exists b i l : Q,
    bruto (calculateMonthlyPayroll m (Num 1000) (Some (Num 80))) = Num b /\
    inss (calculateMonthlyPayroll m (Num 1000) (Some (Num 80))) = Num i /\
    liquido (calculateMonthlyPayroll m (Num 1000) (Some (Num 80))) = Num l /\
    - (1 # 100) <= l - (b - i) /\ l - (b - i) <= 1 # 100.
Proof.
  intros m. do 2 eexists.
  destruct calculateMonthlyPayroll_fields_consistent as [_ H].
  destruct (H m (Num 1000) (Some (Num 80)) _ _ eq_refl eq_refl)
    as (l & Hl & Hlo & Hhi).
  exists l. repeat split; assumption.
Defined.

(** X13.  [calculateOvertimeBreakdown] rounds the two values and their sum
    separately: on numbers the total is within one cent of the sum of the
    two values it returns, and for hours and an hourly value that are not
    negative none of the three is negative. *)
Theorem calculateOvertimeBreakdown_total_within_a_cent :
  forall h50 h100 valorHora : Q,
    let r := calculateOvertimeBreakdown (Num h50) (Num h100) (Num valorHora) in
    exists v50 v100 total : Q,
      breakdownExtra50 r = Num v50 /\ breakdownExtra100 r = Num v100 /\
      totalExtras r = Num total /\
      - (1 # 100) <= total - (v50 + v100) /\
      total - (v50 + v100) <= 1 # 100 /\
      (0 <= h50 -> 0 <= h100 -> 0 <= valorHora ->
       0 <= v50 /\ 0 <= v100 /\ 0 <= total).
Proof.
  intros h50 h100 v r. subst r.
  unfold calculateOvertimeBreakdown. cbv zeta.
  cbn [breakdownExtra50 breakdownExtra100 totalExtras mul add lift2].
  rewrite !round2_Num.
  do 3 eexists. repeat apply conj; try reflexivity;
    try apply Qround2_add_within_cent.
  intros H50 H100 Hv.
  assert (A : 0 <= h50 * (v * (15 # 10)))
    by (apply Qmult_le_0_compat; lra).
  assert (B : 0 <= h100 * (v * 2))
    by (apply Qmult_le_0_compat; lra).
  repeat split; apply Qround2_nonneg; lra.
Qed.

Lemma calculateOvertimeBreakdown_total_within_a_cent_witness :
  let r := calculateOvertimeBreakdown (Num (1 # 100)) (Num (1 # 100))
             (Num (25 # 100)) in
  exists v50 v100 total : Q,
    breakdownExtra50 r = Num v50 /\ breakdownExtra100 r = Num v100 /\
    totalExtras r = Num total /\
    0 <= v50 /\ 0 <= v100 /\ 0 <= total.
Proof.
  intros r.
  destruct (calculateOvertimeBreakdown_total_within_a_cent
              (1 # 100) (1 # 100) (25 # 100))
    as (v50 & v100 & total & H1 & H2 & H3 & _ & _ & H).
  exists v50, v100, total.
  repeat apply conj; try assumption; apply H; discriminate.
Defined.




(** ** holidays.ts *)

Lemma getHolidays_closed_form (year month : Z) :
  getHolidays year month
  = or_empty (table_get month holidaysByMonth)
    ++ (if (year =? 2026)%Z then movable_2026 month else []).
Proof.
  unfold getHolidays, movable_2026.
  destruct (year =? 2026)%Z; [|rewrite app_nil_r; reflexivity].
  destruct (Z.eqb_spec month 1) as [-> | H1]; [reflexivity|].
  destruct (Z.eqb_spec month 3) as [-> | H3]; [reflexivity|].
  destruct (Z.eqb_spec month 5) as [-> | H5]; [reflexivity|].
  rewrite app_nil_r. reflexivity.
Qed.

(** Case analysis on the month against the keys of the table. *)
Ltac month_cases month :=
  repeat match goal with
    | |- context [(?k =? month)%Z] =>
        destruct (Z.eqb_spec k month); [subst month|]
    | |- context [(month =? ?k)%Z] =>
        destruct (Z.eqb_spec month k); [subst month|]
    | H : context [(?k =? month)%Z] |- _ =>
        destruct (Z.eqb_spec k month); [subst month|]
    | H : context [(month =? ?k)%Z] |- _ =>
        destruct (Z.eqb_spec month k); [subst month|]
    end.

(** X15.  The movable holidays exist for 2026 only.  For every other year
    [getHolidays] returns the entry of the fixed table, the same for all of
    them; for 2026 it returns that entry followed by the movable holiday of
    the month that is asked for (17 February, 3 April, 4 June), so that
    Carnival, Good Friday and Corpus Christi are holidays in 2026 and in no
    other year, and every holiday of another year is one in 2026. *)
Theorem getHolidays_movable_only_in_2026 :
  (forall year month : Z,
      getHolidays year month
      = or_empty (table_get month holidaysByMonth)
        ++ (if (year =? 2026)%Z then movable_2026 month else [])) /\
  (forall year1 year2 month : Z,
      year1 <> 2026%Z -> year2 <> 2026%Z ->
      getHolidays year1 month = getHolidays year2 month) /\
  (forall year month day : Z,
      In day (getHolidays year month) -> In day (getHolidays 2026 month)) /\
  (forall year : Z,
      year <> 2026%Z ->
      getHolidays year 1 = [] /\ getHolidays year 5 = [] /\
      ~ In 3%Z (getHolidays year 3)).
Proof.
  split; [exact getHolidays_closed_form|]. split; [|split].
  - intros y1 y2 m H1 H2. rewrite !getHolidays_closed_form.
    apply Z.eqb_neq in H1, H2. rewrite H1, H2. reflexivity.
  - intros y m d. rewrite !getHolidays_closed_form.
    rewrite !in_app_iff. intros [H | H]; [left; exact H|].
    right. destruct (y =? 2026)%Z; [exact H | destruct H].
  - intros y Hy. rewrite !getHolidays_closed_form.
    apply Z.eqb_neq in Hy. rewrite Hy. cbn.
    repeat split. intros [H | [H | []]]; discriminate.
Qed.

Lemma getHolidays_movable_only_in_2026_witness :
  getHolidays 2025 3 = getHolidays 2027 3 /\
  In 21%Z (getHolidays 2026 3) /\
  getHolidays 2025 1 = [].
Proof.
  destruct getHolidays_movable_only_in_2026 as (_ & Hsame & Hsub & Hnone).
  split; [|split].
  - apply Hsame; discriminate.
  - apply (Hsub 2025%Z). cbn. left. reflexivity.
  - apply Hnone. discriminate.
Defined.

(** X16.  [getHolidays] returns calendar days only: every day of the list is
    a day of the month asked for (a month from 0 to 11, a day from 1 to the
    length of the month), no day is listed twice, and a month number outside
    0..11 gives the empty list, for every year. *)
Theorem getHolidays_valid_days :
  forall year month : Z,
    (forall day : Z,
        In day (getHolidays year month) ->
        (0 <= month <= 11)%Z /\ (1 <= day <= month_length month)%Z) /\
    NoDup (getHolidays year month) /\
    ((month < 0)%Z \/ (11 < month)%Z -> getHolidays year month = []).
Proof.
  intros year month. rewrite getHolidays_closed_form.
  unfold movable_2026, holidaysByMonth, table_get.
  split; [|split].
  - intros day Hin. destruct (year =? 2026)%Z;
      month_cases month; cbn in Hin;
      repeat match goal with
        | H : _ \/ _ |- _ => destruct H
        | H : False |- _ => destruct H
        end; subst; repeat split; vm_compute; discriminate.
  - destruct (year =? 2026)%Z; month_cases month; cbn;
      repeat constructor; cbn; intuition discriminate.
  - intros Hout. destruct (year =? 2026)%Z; month_cases month;
      try reflexivity; lia.
Qed.

Lemma getHolidays_valid_days_witness :
  ((0 <= 10 <= 11)%Z /\ (1 <= 20 <= month_length 10)%Z) /\
  getHolidays 2026 12 = [].
Proof.
  destruct (getHolidays_valid_days 2026 10) as (Hday & _ & _).
  destruct (getHolidays_valid_days 2026 12) as (_ & _ & Hout).
  split.
  - apply Hday. cbn. right. right. left. reflexivity.
  - apply Hout. right. reflexivity.
Defined.

(** ** ui/Layout.example.tsx *)

Lemma tl_app_nonempty {A : Type} (l : list A) (x : A) :
  l <> [] -> tl (l ++ [x]) = tl l ++ [x].
Proof. destruct l; [congruence | reflexivity]. Qed.

Lemma length_pos_nonempty {A : Type} (l : list A) :
  (0 <? List.length l)%nat = true <-> l <> [].
Proof.
  destruct l; simpl; split; intros H; try congruence; try reflexivity.
  discriminate.
Qed.

Lemma week_step_invariant D done st day :
  weeks_invariant D done st ->
  weeks_invariant D (done ++ [day]) (week_step D st day).
Proof.
  destruct st as [weeks cur]. unfold weeks_invariant, week_step.
  intros (Hcat & Hne & Hsof & Hstart & Hcur).
  apply Forall_app in Hsof. destruct Hsof as [Hsofw Hsofc].
  apply Forall_inv in Hsofc.
  destruct ((getDay D (date day) =? 0)%Z && (0 <? List.length cur)%nat)
    eqn:E.
  - apply andb_prop in E. destruct E as [Esun Elen].
    apply length_pos_nonempty in Elen.
    repeat apply conj.
    + rewrite concat_app. simpl. rewrite app_nil_r, Hcat. reflexivity.
    + apply Forall_app. split; [exact Hne|]. constructor; [exact Elen|constructor].
    + repeat (apply Forall_app; split); try assumption.
      * constructor; [exact Hsofc | constructor].
      * constructor; [|constructor]. constructor.
    + rewrite tl_app_nonempty by (destruct weeks; discriminate).
      apply Forall_app. split; [exact Hstart|].
      constructor; [exact Esun | constructor].
    + intros _. discriminate.
  - repeat apply conj.
    + rewrite app_assoc, Hcat. reflexivity.
    + exact Hne.
    + apply Forall_app. split; [exact Hsofw|].
      constructor; [|constructor].
      unfold sunday_only_first in *.
      destruct cur as [|c cur]; [constructor|].
      simpl. apply Forall_app. split; [exact Hsofc|].
      constructor; [|constructor].
      unfold is_sunday. simpl in E. rewrite andb_true_r in E. exact E.
    + destruct weeks as [|w ws]; [constructor|].
      simpl in *. apply Forall_app in Hstart. destruct Hstart as [Hws Hc].
      apply Forall_app. split; [exact Hws|].
      apply Forall_inv in Hc. constructor; [|constructor].
      destruct cur; [destruct Hc | exact Hc].
    + intros _. destruct cur; discriminate.
Qed.

Lemma fold_week_step_invariant D days :
  forall done st,
    weeks_invariant D done st ->
    weeks_invariant D (done ++ days) (fold_left (week_step D) days st).
Proof.
  induction days as [|day days IH]; intros done st H.
  - rewrite app_nil_r. exact H.
  - cbn [fold_left].
    replace (done ++ day :: days) with ((done ++ [day]) ++ days)
      by (rewrite <- app_assoc; reflexivity).
    apply IH, week_step_invariant, H.
Qed.

(** X17.  [groupDaysByWeek] cuts the list of days into weeks without losing,
    adding or reordering a day: the weeks, put end to end, are the list it
    was given; no week is empty; a Sunday is never inside a week, only at its
    start; and every week after the first one starts on a Sunday. *)
Theorem groupDaysByWeek_partition :
  forall (D : DateMethods) (days : list DayRecord),
    let weeks := groupDaysByWeek D days in
    List.concat weeks = days /\
    Forall (fun w => w <> []) weeks /\
    Forall (sunday_only_first D) weeks /\
    Forall (starts_on_sunday D) (tl weeks).
Proof.
  intros D days weeks. subst weeks. unfold groupDaysByWeek.
  destruct days as [|d days]; [simpl; repeat split; constructor|].
  cbn [List.length Nat.eqb].
  pose proof (fold_week_step_invariant D (d :: days) [] ([], [])) as H.
  destruct (fold_left (week_step D) (d :: days) ([], [])) as [ws cur].
  unfold weeks_invariant in H.
  destruct H as (Hcat & Hne & Hsof & Hstart & Hcur).
  { simpl. repeat split; try constructor; try constructor.
    intros H; congruence. }
  assert (Hc : cur <> []) by (apply Hcur; discriminate).
  apply length_pos_nonempty in Hc. rewrite Hc.
  apply length_pos_nonempty in Hc.
  repeat apply conj.
  - rewrite concat_app. simpl. rewrite app_nil_r. exact Hcat.
  - apply Forall_app. split; [exact Hne|]. constructor; [exact Hc|constructor].
  - exact Hsof.
  - exact Hstart.
Qed.

Example groupDaysByWeek_quinzena :
  map (fun w => map (fun d => getDate utc (date d)) w)
      (groupDaysByWeek utc quinzena_2026)
  = [ [1; 2; 3]; [4; 5; 6; 7; 8; 9; 10]; [11; 12; 13; 14] ]%Z.
Proof. vm_compute. reflexivity. Qed.

(** X18.  [handleDayUpdate] replaces days by date and touches nothing else:
    the dates of the list stay as they were, in the same order; every day of
    the new list is the updated day or a day of the old list with another
    date; when no day has the date of the updated day the list is unchanged,
    and when one has, the updated day is in the new list; and updating twice
    is updating once. *)
Theorem handleDayUpdate_replaces_by_date :
  forall (updatedDay : DayRecord) (prev : list DayRecord),
    map date (handleDayUpdate updatedDay prev) = map date prev /\
    (forall d : DayRecord,
        In d (handleDayUpdate updatedDay prev) ->
        d = updatedDay \/ (In d prev /\ date d <> date updatedDay)) /\
    (~ In (date updatedDay) (map date prev) ->
     handleDayUpdate updatedDay prev = prev) /\
    (In (date updatedDay) (map date prev) ->
     In updatedDay (handleDayUpdate updatedDay prev)) /\
    handleDayUpdate updatedDay (handleDayUpdate updatedDay prev)
    = handleDayUpdate updatedDay prev.
Proof.
  intros u prev. unfold handleDayUpdate.
  induction prev as [|d prev (IH1 & IH2 & IH3 & IH4 & IH5)];
    [simpl; repeat split; try reflexivity; try tauto|].
  cbn [map In].
  destruct (Z.eqb_spec (date d) (date u)) as [E | E].
  - repeat apply conj.
    + rewrite IH1, E. reflexivity.
    + intros x [<- | H]; [left; reflexivity|].
      destruct (IH2 x H) as [-> | [H1 H2]]; [left; reflexivity|].
      right. split; [right; exact H1 | exact H2].
    + intros H. exfalso. apply H. left. exact E.
    + intros _. left. reflexivity.
    + rewrite Z.eqb_refl, IH5. reflexivity.
  - repeat apply conj.
    + rewrite IH1. reflexivity.
    + intros x [<- | H]; [right; split; [left; reflexivity | exact E]|].
      destruct (IH2 x H) as [-> | [H1 H2]]; [left; reflexivity|].
      right. split; [right; exact H1 | exact H2].
    + intros H. rewrite IH3; [reflexivity|].
      intros H'. apply H. right. exact H'.
    + intros [H | H]; [contradiction|]. right. apply IH4, H.
    + apply Z.eqb_neq in E. rewrite E, IH5. reflexivity.
Qed.

Lemma handleDayUpdate_replaces_by_date_witness :
  In (dia_2026 0 5 true false)
     (handleDayUpdate (dia_2026 0 5 true false) quinzena_2026) /\
  handleDayUpdate (dia_2026 1 5 true false) quinzena_2026 = quinzena_2026.
Proof.
  destruct (handleDayUpdate_replaces_by_date (dia_2026 0 5 true false)
              quinzena_2026) as (_ & _ & _ & Hin & _).
  destruct (handleDayUpdate_replaces_by_date (dia_2026 1 5 true false)
              quinzena_2026) as (_ & _ & Hout & _).
  split.
  - apply Hin. vm_compute. tauto.
  - apply Hout. vm_compute. intuition discriminate.
Defined.

Lemma resyncDay_flags D settings newSettings day :
  let d' := resyncDay D settings newSettings day in
  date d' = date day /\
  ehFolga d'
  = (getDay D (date day) =? weekDayMap (folgaPadrao newSettings))%Z /\
  ehFeriado d' = isHoliday D (date day).
Proof.
  unfold resyncDay. cbv zeta.
  destruct (negb _ || negb _) eqn:E; [simpl; auto|].
  apply orb_false_elim in E. destruct E as [E1 E2].
  apply negb_false_iff, Bool.eqb_prop in E1, E2.
  destruct (_ && _ && _); simpl; auto.
Qed.

(** X19.  After [handleSettingsChange] every day carries the flags of the
    calendar: its dates are those of the list before, in the same order; a
    day is a weekly rest exactly when its weekday is the rest day of the new
    settings, and a holiday exactly when [isHoliday] says so, whatever the
    flags were before (flags set by hand are overwritten). *)
Theorem handleSettingsChange_flags_follow_calendar :
  forall (D : DateMethods) (settings newSettings : Settings)
         (prev : list DayRecord),
    let next := handleSettingsChange D settings newSettings prev in
    map date next = map date prev /\
    Forall (fun d =>
              ehFolga d
              = (getDay D (date d) =? weekDayMap (folgaPadrao newSettings))%Z
              /\ ehFeriado d = isHoliday D (date d)) next.
Proof.
  intros D settings newSettings prev next. subst next.
  unfold handleSettingsChange.
  induction prev as [|d prev [IH1 IH2]]; [split; constructor|].
  cbn [map].
  destruct (resyncDay_flags D settings newSettings d) as (Hd & Hf & Hh).
  split.
  - rewrite Hd, IH1. reflexivity.
  - constructor; [|exact IH2]. rewrite Hd. split; assumption.
Qed.

(** X20.  What a change of settings does to the hours of a day whose flags
    it corrects.  A day that becomes a weekly rest loses its clock times and
    counts nothing.  A day that is not a weekly rest gets the default shift
    of the new settings, also when the correction is that it became a
    holiday: the classifier then books the whole default shift at 100%. *)
Theorem handleSettingsChange_refills_corrected_days :
  forall (D : DateMethods) (Number : string -> number)
         (settings newSettings : Settings) (day : DayRecord) (j : number),
    status_changed D newSettings day = true ->
    let d' := resyncDay D settings newSettings day in
    (ehFolga d' = true ->
     entrada d' = EmptyString /\ saida d' = EmptyString /\
     dailyResultOf Number j d' = zeroHours) /\
    (ehFolga d' = false ->
     entrada d' = horaEntradaPadrao newSettings /\
     saida d' = horaSaidaPadrao newSettings /\
     intervaloHoras d' = intervaloPadraoHoras newSettings /\
     (ehFeriado d' = true ->
      horaEntradaPadrao newSettings <> EmptyString ->
      horaSaidaPadrao newSettings <> EmptyString ->
      dailyResultOf Number j d'
      = {| horasNormais := Num 0;
           horasExtra50 := Num 0;
           horasExtra100 :=
             minutesToDecimalHours
               (calculateWorkedMinutes Number
                  (horaEntradaPadrao newSettings)
                  (horaSaidaPadrao newSettings)
                  (intervaloPadraoHoras newSettings)) |})).
Proof.
  intros D Number settings newSettings day j Hch d'. subst d'.
  unfold status_changed in Hch. unfold resyncDay. cbv zeta. rewrite Hch.
  destruct (getDay D (date day) =? weekDayMap (folgaPadrao newSettings))%Z;
    cbn [ehFolga entrada saida intervaloHoras ehFeriado]; split;
    try discriminate.
  - intros _. repeat split.
  - intros _. repeat split.
    intros Hhol He Hs. unfold dailyResultOf.
    cbn [ehFolga entrada saida intervaloHoras ehFeriado].
    rewrite (calculateDailyResult_worked _ _ _ _ _ _ _ He Hs), Hhol.
    reflexivity.
Qed.

Lemma handleSettingsChange_refills_corrected_days_witness :
  let d' := resyncDay utc (config 1000) (config 1000)
              (dia_2026 3 21 false false) in
  dailyResultOf decimalNumber (Num (220 / 30)) d'
  = {| horasNormais := Num 0;
       horasExtra50 := Num 0;
       horasExtra100 :=
         minutesToDecimalHours
           (calculateWorkedMinutes decimalNumber "08:00" "17:00" (Num 1)) |}.
Proof.
  intros d'.
  destruct (handleSettingsChange_refills_corrected_days utc decimalNumber
              (config 1000) (config 1000) (dia_2026 3 21 false false)
              (Num (220 / 30)) eq_refl) as [_ H].
  destruct (H eq_refl) as (_ & _ & _ & Hhol).
  apply Hhol; [reflexivity | discriminate | discriminate].
Defined.

(** X21.  The toggles of a day row.  Toggling the holiday flag twice gives
    the day back.  Toggling the weekly rest twice gives back the flags but
    not the clock times: they are emptied on the way, whichever way the
    toggle started.  And a day that is toggled to weekly rest counts nothing
    in the classifier. *)
Theorem handleToggle_twice :
  forall day : DayRecord,
    handleToggleFeriado (handleToggleFeriado day) = day /\
    handleToggleFolga (handleToggleFolga day) = without_times day /\
    (ehFolga day = false ->
     forall (Number : string -> number) (j : number),
       dailyResultOf Number j (handleToggleFolga day) = zeroHours).
Proof.
  intros [dt e s i folga feriado]. split; [|split].
  - unfold handleToggleFeriado. simpl. rewrite negb_involutive. reflexivity.
  - unfold handleToggleFolga, without_times. simpl.
    rewrite negb_involutive. destruct folga; reflexivity.
  - simpl. intros -> Number j. reflexivity.
Qed.

Lemma handleToggle_twice_witness :
  dailyResultOf decimalNumber (Num (220 / 30))
    (handleToggleFolga (dia "08:00" "17:00" 1 false false))
  = zeroHours.
Proof.
  destruct (handleToggle_twice (dia "08:00" "17:00" 1 false false))
    as (_ & _ & H).
  apply H. reflexivity.
Defined.


(** * Properties in which the doubles take part *)

Local Open Scope float_scope.

(** ** calculateDSR *)




(** A second tie: 0.75 * 7.5 * (7 / 5) is 7.875 and the code returns 7.87;
    away from ties the code returns the exact rounding. *)
Example calculateDSR_in_doubles :
  Binary64.calculateDSR 0.75 0 7.5 10 7 5 = 7.87 /\
  Binary64.calculateDSR 10 2 15 20 5 19 = 50.
Proof. repeat apply conj; vm_compute; reflexivity. Qed.

(** ** calculateINSS *)

(** C5, amended.  [calculateINSS(1412.00)] is 105.90 and
    [calculateINSS(2666.68)] is 218.82 once rounded to two decimals, as the
    caller rounds them; unrounded, the code returns the doubles
    105.89999999999999 (1412.00 * 0.075) and 218.82119999999998 (the sum of
    the contributions of the first two brackets). *)
Theorem calculateINSS_scenario_rounded :
  round2 (calculateINSS (Num 1412)) =n= Num (10590 # 100) /\
  round2 (calculateINSS (Num (266668 # 100))) =n= Num (21882 # 100) /\
  Binary64.calculateINSS 1412.00 = 105.89999999999999 /\
  Binary64.calculateINSS 1412.00 = 1412.00 * 0.075 /\
  Binary64.calculateINSS 2666.68 = 218.82119999999998 /\
  Binary64.calculateINSS 2666.68
  = 1412.00 * 0.075 + (2666.68 - 1412.00) * 0.09 /\
  Binary64.round2 (Binary64.calculateINSS 1412.00) = 105.9 /\
  Binary64.round2 (Binary64.calculateINSS 2666.68) = 218.82.
Proof. repeat apply conj; vm_compute; reflexivity. Qed.

(** The figure of the specification is not reached in doubles either. *)
Example calculateINSS_scenario_in_doubles :
  PrimFloat.eqb (Binary64.calculateINSS 2666.68) 228.69 = false /\
  PrimFloat.eqb (Binary64.round2 (Binary64.calculateINSS 2666.68)) 228.69
  = false.
Proof. repeat apply conj; vm_compute; reflexivity. Qed.

(** ** calculateDailyResult *)

(** C9, as stated, on an ordinary day of the aggregator (standard day
    [220 / 30]) from 00:00 to 15:21 without a break: the worked hours are
    15.35, the buckets are [220 / 30] and [15.35 - 220 / 30], and their sum
    is 15.349999999999998.  The same happens with a standard day of 7.33 and
    23.37 hours worked. *)
Lemma calculateDailyResult_sum_differs_in_doubles :
  let r := Binary64.calculateDailyResult Binary64.decimalNumber
             "00:00" "15:21" 0 false false (220 / 30) in
  let w := Binary64.minutesToDecimalHours
             (Binary64.calculateWorkedMinutes Binary64.decimalNumber
                "00:00" "15:21" 0) in
  w = 15.35 /\
  Binary64.horasNormais r + Binary64.horasExtra50 r + Binary64.horasExtra100 r
  = 15.349999999999998 /\
  PrimFloat.eqb
    (Binary64.horasNormais r + Binary64.horasExtra50 r
     + Binary64.horasExtra100 r) w = false /\
  PrimFloat.eqb (7.33 + (23.37 - 7.33) + 0) 23.37 = false.
Proof. repeat apply conj; vm_compute; reflexivity. Qed.

Lemma sum_of_buckets_rounded (j m : Q) :
  round2 (add (add (Num j) (sub (minutesToDecimalHours (Num m)) (Num j)))
              (Num 0))
  =n= minutesToDecimalHours (Num m).
Proof.
  rewrite minutesToDecimalHours_Num. cbn [sub add lift2].
  rewrite round2_Num. cbn [eqn].
  rewrite <- (Qround2_idem (m / 60)) at 2. apply Qround2_comp. ring.
Qed.

(** C9, amended.  With both clock times present and a standard day of [j]
    hours, the hours of the day go to the buckets as follows.  On a holiday,
    on a weekly rest, and on an ordinary day of at most [j] hours, one bucket
    is the worked hours themselves and the other two are 0, so that the
    buckets add up to the worked hours exactly.  On an ordinary day of more
    than [j] hours the buckets are [j] and the difference [worked - j]: they
    add up to the worked hours once the sum is rounded to two decimals (for
    [j >= 0]); in doubles the sum itself can differ from the worked hours in
    the last bit.  For the standard day of the aggregator and every
    clock-out of a day that starts at 00:00, in doubles: the holiday and the
    rest day add up exactly, the ordinary day adds up after rounding to two
    decimals, and the sum itself differs exactly at the 22 clock-outs
    listed, from 15:21 to 15:58. *)
Theorem calculateDailyResult_hours_by_branch :
  (forall (Number : string -> number) (entrada saida : string)
          (intervaloHoras : number) (ehFeriado ehFolga : bool) (j : Q),
      entrada <> EmptyString -> saida <> EmptyString ->
      let w := minutesToDecimalHours
                 (calculateWorkedMinutes Number entrada saida intervaloHoras) in
      let r := calculateDailyResult Number entrada saida intervaloHoras
                 ehFeriado ehFolga (Num j) in
      let total :=
        add (add (horasNormais r) (horasExtra50 r)) (horasExtra100 r) in
      (ehFeriado = true ->
       r = {| horasNormais := Num 0; horasExtra50 := Num 0;
              horasExtra100 := w |} /\ total =n= w) /\
      (ehFeriado = false -> ehFolga = true ->
       r = {| horasNormais := Num 0; horasExtra50 := w;
              horasExtra100 := Num 0 |} /\ total =n= w) /\
      (ehFeriado = false -> ehFolga = false -> le w (Num j) = true ->
       r = {| horasNormais := w; horasExtra50 := Num 0;
              horasExtra100 := Num 0 |} /\ total =n= w) /\
      (ehFeriado = false -> ehFolga = false -> le w (Num j) = false ->
       r = {| horasNormais := Num j; horasExtra50 := sub w (Num j);
              horasExtra100 := Num 0 |} /\
       ((0 <= j)%Q -> isFinite w = true -> round2 total =n= w))) /\
  forallb
    (fun minute =>
       PrimFloat.eqb (Binary64.buckets_sum (Binary64.day_until minute true false))
         (Binary64.worked_until minute)
       && PrimFloat.eqb
            (Binary64.buckets_sum (Binary64.day_until minute false true))
            (Binary64.worked_until minute)
       && PrimFloat.eqb
            (Binary64.round2
               (Binary64.buckets_sum (Binary64.day_until minute false false)))
            (Binary64.worked_until minute))
    (seq 0 1440) = true /\
  filter
    (fun minute =>
       negb (PrimFloat.eqb
               (Binary64.buckets_sum (Binary64.day_until minute false false))
               (Binary64.worked_until minute)))
    (seq 0 1440)
  = [921; 922; 923; 924; 925; 928; 932; 935; 936; 937; 938; 939; 940; 943;
     947; 950; 951; 952; 953; 954; 955; 958]%nat.
Proof.
  split; [|split; vm_compute; reflexivity].
  intros Number entrada saida intervaloHoras hol folga j He Hs w r total.
  subst total r.
  rewrite (calculateDailyResult_worked _ _ _ _ _ _ _ He Hs).
  fold w. cbv zeta.
  split; [|split; [|split]].
  - intros ->. split; [reflexivity|].
    cbn [horasNormais horasExtra50 horasExtra100].
    destruct w as [|q]; cbn; [exact I | lra].
  - intros -> ->. split; [reflexivity|].
    cbn [horasNormais horasExtra50 horasExtra100].
    destruct w as [|q]; cbn; [exact I | lra].
  - intros -> -> ->. split; [reflexivity|].
    cbn [horasNormais horasExtra50 horasExtra100].
    destruct w as [|q]; cbn; [exact I | lra].
  - intros -> -> ->. split; [reflexivity|].
    intros _ Hw. cbn [horasNormais horasExtra50 horasExtra100].
    subst w.
    destruct (calculateWorkedMinutes Number entrada saida intervaloHoras)
      as [|m]; [discriminate|].
    apply sum_of_buckets_rounded.
Qed.

Lemma calculateDailyResult_hours_by_branch_witness :
  let w := minutesToDecimalHours
             (calculateWorkedMinutes decimalNumber "00:00" "15:21" (Num 0)) in
  let r := calculateDailyResult decimalNumber "00:00" "15:21" (Num 0)
             false false (Num (220 / 30)) in
  r = {| horasNormais := Num (220 / 30);
         horasExtra50 := sub w (Num (220 / 30));
         horasExtra100 := Num 0 |} /\
  round2 (add (add (horasNormais r) (horasExtra50 r)) (horasExtra100 r))
  =n= w.
Proof.
  destruct calculateDailyResult_hours_by_branch as [H _].
  destruct (H decimalNumber "00:00"%string "15:21"%string (Num 0) false false
              (220 / 30)%Q ltac:(discriminate) ltac:(discriminate))
    as (_ & _ & _ & Hover).
  destruct (Hover eq_refl eq_refl eq_refl) as [Hr Hsum].
  split; [exact Hr|].
  apply Hsum; [discriminate | reflexivity].
Defined.
